(** * chimerascan: segmented alignment driver

    A shallow embedding of [chimerascan/deprecated/align_segments.py]:
    the segment planner [determine_read_segments], the input validation
    [check_fastq_files], the three-stage pipeline [align_segments], the
    driver [align] and the entry point [main], from the parsed command
    line on.

    Python integers are modelled as [Z] (floor division is [Z.div]),
    strings as [string], lists as [list], raised exceptions as the [Raise]
    outcome.  Calls of the [logging] module only format and emit text; they
    are left out of the model, except where building the text raises
    ([main] without an index). *)

From Stdlib Require Import ZArith String Ascii DecimalString DecimalPos DecimalZ.
From Stdlib Require Import Bool Lia List Sorted.
Import ListNotations.
Open Scope Z_scope.

(** ** Python values, exceptions and outcomes *)

(** The exceptions the modelled functions can raise.  [AlignError] is the
    class of the source; the others are Python's own. *)
Inductive exn : Type :=
| AlignError (value : string)
| ZeroDivisionError
| IndexError
| ValueError
| OSError
| IOError.

Inductive outcome (A : Type) : Type :=
| Return (a : A)
| Raise (e : exn).

Arguments Return {A} a.
Arguments Raise {A} e.

(** A segment boundary, the tuple [(start, end)] of the source. *)
Definition segment : Type := (Z * Z)%type.

(** ** determine_read_segments *)

(** [xrange(lo, hi)]: the integers [lo], [lo+1], ..., [hi-1]; empty when
    [hi <= lo].  Bounds are taken to fit the machine integers [xrange]
    accepts. *)
Definition xrange (lo hi : Z) : list Z :=
  map (fun i => lo + Z.of_nat i) (seq 0 (Z.to_nat (hi - lo))).

(** One turn of the loop body: append the window [(start, start +
    segment_length)] and advance [start]. *)
Definition append_window (segment_length : Z) (st : Z * list segment) (x : Z)
  : Z * list segment :=
  let '(start, segments) := st in
  (start + segment_length, segments ++ [(start, start + segment_length)]).

Definition determine_read_segments
  (read_length segment_length : Z) (segment_trim : bool) (trim5 trim3 : Z)
  : outcome (list segment) :=
  let trimmed_rlen := read_length - trim5 - trim3 in
  if segment_length =? 0 then Raise ZeroDivisionError else
  let num_segments := trimmed_rlen / segment_length in
  let read_end :=
    if segment_trim then segment_length * num_segments
    else read_length - trim3 in
  if num_segments =? 1 then Return [(trim5, read_end)] else
  let start := trim5 + segment_length in
  let segments := [(trim5, start)] in
  let '(start, segments) :=
    fold_left (append_window segment_length)
              (xrange 1 (num_segments - 1)) (start, segments) in
  if start <? read_end then Return (segments ++ [(start, read_end)])
  else Return segments.

(** ** Properties of boundary lists *)

(** Position [p] lies in the half-open window [w]. *)
Definition inside (p : Z) (w : segment) : Prop := fst w <= p < snd w.

(** Starts increase from left to right. *)
Definition ordered (segs : list segment) : Prop :=
  StronglySorted (fun a b => fst a < fst b) segs.

(** Each window ends where the next one starts. *)
Definition contiguous (segs : list segment) : Prop :=
  Sorted (fun a b => snd a = fst b) segs.

(** No position lies in two windows of the list. *)
Definition non_overlapping (segs : list segment) : Prop :=
  ForallOrdPairs (fun a b => forall p, ~ (inside p a /\ inside p b)) segs.

(** The union of the windows is exactly [[a, b)]. *)
Definition spans (segs : list segment) (a b : Z) : Prop :=
  forall p, Exists (inside p) segs <-> a <= p < b.

(** The end of the usable read, as the planner computes it. *)
Definition read_end_of
  (read_length segment_length : Z) (segment_trim : bool) (trim5 trim3 : Z) : Z :=
  if segment_trim
  then segment_length * ((read_length - trim5 - trim3) / segment_length)
  else read_length - trim3.

(** The planner returns a list that is ordered, contiguous, free of
    overlaps and whose union is [[trim5, read_end)]. *)
Definition tiles_read
  (read_length segment_length : Z) (segment_trim : bool) (trim5 trim3 : Z) : Prop :=
  exists segs,
    determine_read_segments read_length segment_length segment_trim trim5 trim3
      = Return segs
    /\ ordered segs /\ contiguous segs /\ non_overlapping segs
    /\ spans segs trim5
         (read_end_of read_length segment_length segment_trim trim5 trim3).

(** Every boundary of the list lies inside the read and is not empty. *)
Definition boundaries_in_read (read_length : Z) (segs : list segment) : Prop :=
  Forall (fun w => 0 <= fst w /\ fst w < snd w /\ snd w <= read_length) segs.

(** A chain of non-empty windows leading from [a] to [b]. *)
Fixpoint chain (segs : list segment) (a b : Z) : Prop :=
  match segs with
  | [] => a = b
  | w :: rest => fst w = a /\ fst w < snd w /\ chain rest (snd w) b
  end.

(** The [n] windows of width [segment_length] that start at [start]. *)
Fixpoint grid (n : nat) (segment_length start : Z) : list segment :=
  match n with
  | O => []
  | S n' =>
      (start, start + segment_length)
        :: grid n' segment_length (start + segment_length)
  end.

(** ** Strings and formatting *)

(** [str(n)] and the [%d] conversion of an integer: its decimal digits,
    with a leading minus sign when negative. *)
Definition str (n : Z) : string := NilZero.string_of_int (Z.to_int n).

(** [sep.join(items)]. *)
Definition join (sep : string) (items : list string) : string :=
  String.concat sep items.

(** The three texts an [AlignError] is raised with. *)
Definition not_valid_message (mate : nat) (fastq_file : string) : string :=
  ("mate '" ++ str (Z.of_nat mate) ++ "' fastq file '" ++ fastq_file
     ++ "' is not valid")%string.

Definition too_small_message (segment_length min_length : Z) : string :=
  ("segment length (" ++ str segment_length ++ ") too small (min is "
     ++ str min_length ++ ")")%string.

Definition too_long_message (segment_length trimmed_rlen : Z) : string :=
  ("segment length (" ++ str segment_length
     ++ ") longer than trimmed read length (" ++ str trimmed_rlen ++ ")")%string.

(** No closing parenthesis occurs in the string. *)
Fixpoint paren_free (s : string) : Prop :=
  match s with
  | EmptyString => True
  | String c rest => c <> ")"%char /\ paren_free rest
  end.

(** ** The environment *)

(** The constants imported from [chimerascan.lib.config].  The module is
    not part of the sources at hand, so its two constants are a parameter
    of everything below. *)
Record config : Type := {
  MIN_SEGMENT_LENGTH : Z;
  JOB_SUCCESS : Z
}.

(** The three processes of the pipeline. *)
Inductive stage : Type := Segmenter | Aligner | Merger.

(** What the program observes of its surroundings: the file system
    ([os.path.isfile], [open(_, "w")]), the read-length probe
    [chimerascan.lib.base.get_read_length], the interpreter and script
    locations ([sys.executable], [os.path.join(os.path.dirname(__file__),
    name)]), whether a command can be started, and the exit status each
    stage ends with. *)
Record world : Type := {
  isfile : string -> bool;
  get_read_length : string -> Z;
  sys_executable : string;
  script_path : string -> string;
  can_open : string -> bool;
  can_spawn : list string -> bool;
  returncode : stage -> Z
}.

(** What the program does to its surroundings, in the order it does it.
    [Popen st args stdin stdout_pipe stderr]: stage [st] is started with
    command line [args], reading from the output of stage [stdin] (if any),
    writing to a pipe when [stdout_pipe], its diagnostics going to the file
    [stderr] (if any).  [Wait st status]: [wait()] on stage [st] returned
    [status]. *)
Inductive event : Type :=
| Popen (st : stage) (args : list string) (stdin : option stage)
        (stdout_pipe : bool) (stderr : option string)
| Open (path : string)
| Close (path : string)
| Wait (st : stage) (status : Z).

(** A computation that may raise and that extends the trace of events. *)
Definition io (A : Type) : Type := list event -> outcome A * list event.

Definition ret {A : Type} (a : A) : io A := fun t => (Return a, t).

Definition raise {A : Type} (e : exn) : io A := fun t => (Raise e, t).

Definition bind {A B : Type} (m : io A) (k : A -> io B) : io B :=
  fun t =>
    match m t with
    | (Return a, t') => k a t'
    | (Raise e, t') => (Raise e, t')
    end.

Definition lift {A : Type} (o : outcome A) : io A := fun t => (o, t).

Definition emit (e : event) : io unit := fun t => (Return tt, t ++ [e]).

Declare Scope io_scope.
Delimit Scope io_scope with io.
Notation "x <- m ;; k" := (bind m (fun x => k))
  (at level 100, m at next level, right associativity) : io_scope.
Notation "m ;; k" := (bind m (fun _ => k))
  (at level 100, right associativity) : io_scope.

(** [subprocess.Popen(args, ...)] raises [OSError] when the command cannot
    be started. *)
Definition popen (w : world) (st : stage) (args : list string)
  (stdin : option stage) (stdout_pipe : bool) (stderr : option string) : io unit :=
  if can_spawn w args then emit (Popen st args stdin stdout_pipe stderr)
  else raise OSError.

(** [open(path, "w")] raises [IOError] when the file cannot be opened. *)
Definition open (w : world) (path : string) : io unit :=
  if can_open w path then emit (Open path) else raise IOError.

(** [p.wait()] blocks until the stage has ended and returns its status. *)
Definition wait (w : world) (st : stage) : io Z :=
  fun t => (Return (returncode w st), t ++ [Wait st (returncode w st)]).

(** [max(items)] raises [ValueError] on an empty sequence. *)
Definition max_of (items : list Z) : outcome Z :=
  match items with
  | [] => Raise ValueError
  | x :: rest => Return (fold_left Z.max rest x)
  end.

(** [items[0]] raises [IndexError] on an empty list. *)
Definition first {A : Type} (items : list A) : outcome A :=
  match items with
  | [] => Raise IndexError
  | x :: _ => Return x
  end.

(** What [check_fastq_files] returns: [False] or an integer.  In arithmetic
    a Python boolean counts as 0 or 1. *)
Inductive value : Type :=
| Bool (b : bool)
| Int (n : Z).

Definition int_of (v : value) : Z :=
  match v with
  | Bool true => 1
  | Bool false => 0
  | Int n => n
  end.

(** ** check_fastq_files *)

(** The loop over [enumerate(fastq_files)]: stop at the first path that is
    not a file, otherwise collect the probed read lengths. *)
Fixpoint probe_read_lengths (w : world) (mate : nat) (fastq_files : list string)
  (read_lengths : list Z) : outcome (list Z) :=
  match fastq_files with
  | [] => Return read_lengths
  | fastq_file :: rest =>
      if isfile w fastq_file
      then probe_read_lengths w (S mate) rest
             (read_lengths ++ [get_read_length w fastq_file])
      else Raise (AlignError (not_valid_message mate fastq_file))
  end.

(** [len(set(items))]. *)
Definition len_set (items : list Z) : nat := length (nodup Z.eq_dec items).

Definition check_fastq_files (cfg : config) (w : world)
  (fastq_files : list string) (segment_length trim5 trim3 : Z) : outcome value :=
  match probe_read_lengths w 0 fastq_files [] with
  | Raise e => Raise e
  | Return read_lengths =>
      if (1 <? len_set read_lengths)%nat then Return (Bool false) else
      match first read_lengths with
      | Raise e => Raise e
      | Return rlen =>
          let trimmed_rlen := rlen - trim5 - trim3 in
          if segment_length <? MIN_SEGMENT_LENGTH cfg then
            Raise (AlignError
                     (too_small_message segment_length (MIN_SEGMENT_LENGTH cfg)))
          else if segment_length >? trimmed_rlen then
            Raise (AlignError (too_long_message segment_length trimmed_rlen))
          else Return (Int rlen)
      end
  end.

(** ** align_segments *)

Definition align_segments (w : world)
  (fastq_files : list string) (output_bam_file : string)
  (segments : list segment) (fastq_format : string)
  (multihits mismatches num_threads : Z)
  (bowtie_bin bowtie_index bowtie_mode : string)
  (best_strata : bool) (log_file : option string) : io unit :=
  (let seg_starts_str := join "," (map str (map fst segments)) in
   let seg_ends_str := join "," (map str (map snd segments)) in
   let py_script := script_path w "segment_reads.py" in
   let args :=
     [sys_executable w; py_script; seg_starts_str; seg_ends_str]
       ++ fastq_files in
   popen w Segmenter args None true None ;;
   max_segment_length <- lift (max_of (map (fun s => snd s - fst s) segments)) ;;
   let args :=
     [bowtie_bin; "-q"; "-S"; "-p"; str num_threads; "--tryhard";
      "--" ++ fastq_format; "-k"; str multihits; "-m"; str multihits;
      bowtie_mode; str mismatches]%string in
   let args :=
     if String.eqb bowtie_mode "-n"
     then args ++ ["-l"%string; str max_segment_length] else args in
   let args :=
     if best_strata then args ++ ["--best"; "--strata"]%string else args in
   let args := args ++ [bowtie_index; "-"%string] in
   match log_file with Some path => open w path | None => ret tt end ;;
   popen w Aligner args (Some Segmenter) true log_file ;;
   match log_file with Some path => emit (Close path) | None => ret tt end ;;
   let py_script := script_path w "join_segmented_alignments.py" in
   let args := [sys_executable w; py_script] in
   let args :=
     if (length fastq_files =? 1)%nat then args ++ ["--sr"%string] else args in
   fastq_file0 <- lift (first fastq_files) ;;
   let args := args ++ ["-"%string; fastq_file0; output_bam_file] in
   popen w Merger args (Some Aligner) false None ;;
   wait w Merger ;;
   wait w Aligner ;;
   wait w Segmenter ;;
   ret tt)%io.

(** ** align *)

Definition align (cfg : config) (w : world)
  (fastq_files : list string) (fastq_format bowtie_index output_bam_file : string)
  (bowtie_bin : string) (num_processors segment_length : Z)
  (segment_trim : bool) (trim5 trim3 multihits mismatches : Z)
  (bowtie_mode : string) (best_strata : bool) (log_file : option string) : io Z :=
  (read_length <-
     lift (check_fastq_files cfg w fastq_files segment_length trim5 trim3) ;;
   segments <-
     lift (determine_read_segments (int_of read_length) segment_length
             segment_trim trim5 trim3) ;;
   align_segments w fastq_files output_bam_file segments fastq_format
     multihits mismatches num_processors bowtie_bin bowtie_index bowtie_mode
     best_strata log_file ;;
   ret (JOB_SUCCESS cfg))%io.

(** ** Properties of runs *)

Definition is_popen (st : stage) (e : event) : bool :=
  match e, st with
  | Popen Segmenter _ _ _ _, Segmenter => true
  | Popen Aligner _ _ _ _, Aligner => true
  | Popen Merger _ _ _ _, Merger => true
  | _, _ => false
  end.

Definition is_wait (e : event) : bool :=
  match e with
  | Wait _ _ => true
  | _ => false
  end.

(** Stage [st] was started in the run with trace [t]. *)
Definition started (st : stage) (t : list event) : bool :=
  existsb (is_popen st) t.

(** All three stages were started. *)
Definition all_started (t : list event) : bool :=
  started Segmenter t && started Aligner t && started Merger t.

(** The command lines stage [st] was started with. *)
Definition commands (st : stage) (t : list event) : list (list string) :=
  flat_map (fun e =>
              match e with
              | Popen st' args _ _ _ => if is_popen st e then [args] else []
              | _ => []
              end) t.

(** The [wait()] calls of the run, in order. *)
Definition waits (t : list event) : list event := filter is_wait t.

(** The world [w] in which the stages end with the statuses [status]. *)
Definition with_returncode (w : world) (status : stage -> Z) : world :=
  {| isfile := isfile w;
     get_read_length := get_read_length w;
     sys_executable := sys_executable w;
     script_path := script_path w;
     can_open := can_open w;
     can_spawn := can_spawn w;
     returncode := status |}.

(** The world [w] with other files present. *)
Definition with_isfile (w : world) (present : string -> bool) : world :=
  {| isfile := present;
     get_read_length := get_read_length w;
     sys_executable := sys_executable w;
     script_path := script_path w;
     can_open := can_open w;
     can_spawn := can_spawn w;
     returncode := returncode w |}.

(** The result of a run of [align] reflects the exit statuses of the
    stages: once all three are started, [JOB_SUCCESS] is returned exactly
    when every stage ended with status 0. *)
Definition reflects_exit_statuses
  (cfg : config) (w : world) (run : outcome Z * list event) : Prop :=
  all_started (snd run) = true ->
  (fst run = Return (JOB_SUCCESS cfg) <-> forall st, returncode w st = 0).

(** ** Sample surroundings for concrete runs *)

(** Every path is a file, every command starts, every file opens; the
    read lengths and exit statuses are given. *)
Definition bench (read_length_of : string -> Z) (status : stage -> Z) : world :=
  {| isfile := fun _ => true;
     get_read_length := read_length_of;
     sys_executable := "python";
     script_path := fun name => ("chimerascan/deprecated/" ++ name)%string;
     can_open := fun _ => true;
     can_spawn := fun _ => true;
     returncode := status |}.

(** Two mates of 76 and 50 bases; every stage ends with status 0. *)
Definition unequal_mates : world :=
  bench (fun f => if String.eqb f "mate1.fq" then 76 else 50) (fun _ => 0).

(** Reads of 76 bases; the aligner ends with status 1, the other two
    stages with status 0. *)
Definition aligner_fails : world :=
  bench (fun _ => 76)
        (fun st => match st with Aligner => 1 | _ => 0 end).

(** The configuration used in concrete runs. *)
Definition sample_config : config :=
  {| MIN_SEGMENT_LENGTH := 20; JOB_SUCCESS := 0 |}.

(** A single-end run of the pipeline on 76-base reads cut in three. *)
Definition single_end_run : outcome unit * list event :=
  align_segments aligner_fails ["reads.fq"%string] "out.bam"
    [(0, 25); (25, 50); (50, 76)] "phred33-quals" 40 2 2
    "bowtie" "hg19" "-n" false None [].

(** A single-end run of the driver, diagnostics going to a log file. *)
Definition logged_run : outcome Z * list event :=
  align sample_config aligner_fails ["reads.fq"%string] "phred33-quals"
    "hg19" "out.bam" "bowtie" 2 25 false 0 0 40 2 "-v" true
    (Some "bowtie.log"%string) [].

(** The width of each window, in order. *)
Definition widths (segs : list segment) : list Z :=
  map (fun s => snd s - fst s) segs.

(** How each started stage is connected: its input, whether its output
    is piped, and where its diagnostics go. *)
Definition wiring (t : list event)
  : list (stage * option stage * bool * option string) :=
  flat_map (fun e =>
              match e with
              | Popen st _ stdin stdout_pipe stderr =>
                  [(st, stdin, stdout_pipe, stderr)]
              | _ => []
              end) t.

Definition is_log (e : event) : bool :=
  match e with
  | Open _ | Close _ => true
  | _ => false
  end.

(** The openings and closings of files, in order. *)
Definition log_events (t : list event) : list event := filter is_log t.

(** ** main *)

Module options.

(** The option values [parser.parse_args()] hands back, under their
    [dest] names.  [bowtie_index] is [None] when [--bowtie-index] is not
    given: it is the one option declared without a default. *)
Record t : Type := {
  num_processors : Z;
  bowtie_bin : string;
  bowtie_index : option string;
  bowtie_mode_v : bool;
  multihits : Z;
  mismatches : Z;
  segment_length : Z;
  best_strata : bool;
  trim5 : Z;
  trim3 : Z;
  segment_trim : bool;
  fastq_format : string
}.

(** The values of a command line that gives no option. *)
Definition defaults : t :=
  {| num_processors := 1;
     bowtie_bin := "bowtie";
     bowtie_index := None;
     bowtie_mode_v := false;
     multihits := 100;
     mismatches := 2;
     segment_length := 25;
     best_strata := false;
     trim5 := 0;
     trim3 := 0;
     segment_trim := false;
     fastq_format := "phred33-quals" |}.

End options.

(** How [main] ends: [sys.exit(retcode)], or an exception nothing
    catches.  [TypeError] arises in [main] only. *)
Inductive termination : Type :=
| Exit (retcode : Z)
| Uncaught (e : exn)
| UncaughtTypeError.

(** [align] with [None] as index, up to the point where it fails: the
    arguments of the aligner then hold [None], and joining them for the
    debug message, once the segmenter is started and the widest segment
    found, raises [TypeError].  The computation below is [align] up to
    that join. *)
Definition align_until_join (cfg : config) (w : world)
  (fastq_files : list string) (segment_length : Z) (segment_trim : bool)
  (trim5 trim3 : Z) : io unit :=
  (read_length <-
     lift (check_fastq_files cfg w fastq_files segment_length trim5 trim3) ;;
   segments <-
     lift (determine_read_segments (int_of read_length) segment_length
             segment_trim trim5 trim3) ;;
   let seg_starts_str := join "," (map str (map fst segments)) in
   let seg_ends_str := join "," (map str (map snd segments)) in
   let py_script := script_path w "segment_reads.py" in
   let args :=
     [sys_executable w; py_script; seg_starts_str; seg_ends_str]
       ++ fastq_files in
   popen w Segmenter args None true None ;;
   max_segment_length <- lift (max_of (map (fun s => snd s - fst s) segments)) ;;
   ret tt)%io.

(** [main], from the result [(options, args)] of [parser.parse_args()]
    on. *)
Definition main (cfg : config) (w : world) (opts : options.t)
  (args : list string) : termination * list event :=
  match first args with
  | Raise e => (Uncaught e, [])
  | Return output_bam_file =>
      let fastq_files := tl args in
      let bowtie_mode :=
        if options.bowtie_mode_v opts then "-v"%string else "-n"%string in
      match options.bowtie_index opts with
      | Some index =>
          match
            align cfg w fastq_files (options.fastq_format opts) index
              output_bam_file (options.bowtie_bin opts)
              (options.num_processors opts) (options.segment_length opts)
              (options.segment_trim opts) (options.trim5 opts)
              (options.trim3 opts) (options.multihits opts)
              (options.mismatches opts) bowtie_mode
              (options.best_strata opts) None []
          with
          | (Return retcode, t) => (Exit retcode, t)
          | (Raise e, t) => (Uncaught e, t)
          end
      | None =>
          match
            align_until_join cfg w fastq_files (options.segment_length opts)
              (options.segment_trim opts) (options.trim5 opts)
              (options.trim3 opts) []
          with
          | (Return _, t) => (UncaughtTypeError, t)
          | (Raise e, t) => (Uncaught e, t)
          end
      end
  end.

(** The diagnostics of every started stage go nowhere in particular. *)
Definition no_stderr (t : list event) : Prop :=
  Forall (fun c => snd c = None) (wiring t).

(** The character [c] does not occur in the string. *)
Fixpoint char_free (c : ascii) (s : string) : Prop :=
  match s with
  | EmptyString => True
  | String d rest => d <> c /\ char_free c rest
  end.

(** A run of the pipeline with a log file. *)
Definition logged_pipeline_run : outcome unit * list event :=
  align_segments aligner_fails ["reads.fq"%string] "out.bam" [(0, 76)]
    "phred33-quals" 40 2 2 "bowtie" "hg19" "-n" false
    (Some "bowtie.log"%string) [].

(** A paired-end run of the pipeline on the same segments as
    [single_end_run]. *)
Definition paired_end_run : outcome unit * list event :=
  align_segments unequal_mates ["mate1.fq"; "mate2.fq"]%string "pe.bam"
    [(0, 25); (25, 50); (50, 76)] "solexa-quals" 100 3 1
    "bowtie" "mm9" "-v" true None [].

(** The options of a command line that gives [--bowtie-index hg19] and
    [--bowtie-mode-v]. *)
Definition sample_options : options.t :=
  {| options.num_processors := 1;
     options.bowtie_bin := "bowtie";
     options.bowtie_index := Some "hg19"%string;
     options.bowtie_mode_v := true;
     options.multihits := 100;
     options.mismatches := 2;
     options.segment_length := 25;
     options.best_strata := false;
     options.trim5 := 0;
     options.trim3 := 0;
     options.segment_trim := false;
     options.fastq_format := "phred33-quals" |}.

(** A run of [main] on one fastq file. *)
Definition main_run : termination * list event :=
  main sample_config aligner_fails sample_options
    ["out.bam"; "reads.fq"]%string.

(** ** The loop of the planner in closed form *)

Lemma fold_append_window (segment_length : Z) (xs : list Z) :
  forall start segments,
    fold_left (append_window segment_length) xs (start, segments)
    = (start + Z.of_nat (length xs) * segment_length,
       segments ++ grid (length xs) segment_length start).
Proof.
  induction xs as [|x xs IH]; intros start segments; cbn [fold_left length grid].
  - rewrite app_nil_r. f_equal. lia.
  - unfold append_window at 2. rewrite IH, <- app_assoc. cbn [app].
    f_equal. lia.
Qed.

Lemma xrange_length (lo hi : Z) : length (xrange lo hi) = Z.to_nat (hi - lo).
Proof. unfold xrange. now rewrite length_map, length_seq. Qed.

Lemma grid_length (n : nat) (segment_length : Z) :
  forall start, length (grid n segment_length start) = n.
Proof.
  induction n as [|n IH]; intros start; cbn [grid length]; [reflexivity|].
  now rewrite IH.
Qed.

Lemma chain_app (l1 l2 : list segment) :
  forall a b c, chain l1 a b -> chain l2 b c -> chain (l1 ++ l2) a c.
Proof.
  induction l1 as [|w l1 IH]; intros a b c H1 H2; cbn in *.
  - now subst.
  - destruct H1 as (Ha & Hw & Hr). repeat split; eauto.
Qed.

Lemma chain_grid (segment_length : Z) (n : nat) :
  0 < segment_length ->
  forall start,
    chain (grid n segment_length start) start
          (start + Z.of_nat n * segment_length).
Proof.
  intros Hpos. induction n as [|n IH]; intros start; cbn [grid chain fst snd].
  - lia.
  - repeat split; try lia.
    replace (start + Z.of_nat (S n) * segment_length)
      with (start + segment_length + Z.of_nat n * segment_length) by lia.
    apply IH.
Qed.

Lemma chain_le (segs : list segment) :
  forall a b, chain segs a b -> a <= b.
Proof.
  induction segs as [|w segs IH]; intros a b Hc; cbn in Hc; [lia|].
  destruct Hc as (Ha & Hw & Hr). apply IH in Hr. lia.
Qed.

Lemma chain_bounds (segs : list segment) :
  forall a b w,
    chain segs a b -> In w segs -> a <= fst w /\ fst w < snd w /\ snd w <= b.
Proof.
  induction segs as [|v segs IH]; intros a b w Hc Hin; cbn in *; [tauto|].
  destruct Hc as (Ha & Hv & Hr). pose proof (chain_le _ _ _ Hr) as Hle.
  destruct Hin as [->|Hin]; [lia|].
  destruct (IH _ _ w Hr Hin). lia.
Qed.

Lemma chain_ordered (segs : list segment) :
  forall a b, chain segs a b -> ordered segs.
Proof.
  unfold ordered. induction segs as [|w segs IH]; intros a b Hc; constructor.
  - destruct Hc as (_ & _ & Hr). eauto.
  - destruct Hc as (_ & Hw & Hr). apply Forall_forall. intros v Hv.
    destruct (chain_bounds _ _ _ v Hr Hv). lia.
Qed.

Lemma chain_contiguous (segs : list segment) :
  forall a b, chain segs a b -> contiguous segs.
Proof.
  unfold contiguous. induction segs as [|w segs IH]; intros a b Hc; constructor.
  - destruct Hc as (_ & _ & Hr). eauto.
  - destruct Hc as (_ & _ & Hr). destruct segs as [|v segs]; constructor.
    cbn in Hr. destruct Hr as (Hv & _). congruence.
Qed.

Lemma chain_non_overlapping (segs : list segment) :
  forall a b, chain segs a b -> non_overlapping segs.
Proof.
  unfold non_overlapping. induction segs as [|w segs IH]; intros a b Hc; constructor.
  - destruct Hc as (_ & Hw & Hr). apply Forall_forall. intros v Hv p.
    destruct (chain_bounds _ _ _ v Hr Hv). unfold inside. lia.
  - destruct Hc as (_ & _ & Hr). eauto.
Qed.

Lemma chain_spans (segs : list segment) :
  forall a b, chain segs a b -> spans segs a b.
Proof.
  unfold spans. induction segs as [|w segs IH]; intros a b Hc p; cbn in Hc.
  - split; [intros H; inversion H | lia].
  - destruct Hc as (Ha & Hw & Hr). pose proof (chain_le _ _ _ Hr) as Hle.
    specialize (IH _ _ Hr p). split.
    + intros H. inversion H as [? ? Hi|? ? Hi]; subst.
      * unfold inside in Hi. lia.
      * apply IH in Hi. lia.
    + intros Hp. destruct (Z_lt_ge_dec p (snd w)) as [Hlt|Hge].
      * apply Exists_cons_hd. unfold inside. lia.
      * apply Exists_cons_tl, IH. lia.
Qed.

(** ** The planner *)

(** Past the two early exits, the planner returns the grid of full windows,
    followed by a trailing window when one is left. *)
Lemma determine_read_segments_grid
  (read_length segment_length : Z) (segment_trim : bool) (trim5 trim3 : Z) :
  segment_length <> 0 ->
  (read_length - trim5 - trim3) / segment_length <> 1 ->
  let num_segments := (read_length - trim5 - trim3) / segment_length in
  let n := Z.to_nat (num_segments - 1 - 1) in
  let read_end :=
    read_end_of read_length segment_length segment_trim trim5 trim3 in
  let start := trim5 + segment_length + Z.of_nat n * segment_length in
  determine_read_segments read_length segment_length segment_trim trim5 trim3
  = if start <? read_end
    then Return (grid (S n) segment_length trim5 ++ [(start, read_end)])
    else Return (grid (S n) segment_length trim5).
Proof.
  intros Hsl Hnum. cbv zeta. unfold determine_read_segments, read_end_of.
  apply Z.eqb_neq in Hsl, Hnum. rewrite Hsl, Hnum.
  rewrite fold_append_window, xrange_length. reflexivity.
Qed.

Lemma num_segments_lower (trimmed_rlen segment_length : Z) :
  0 < segment_length -> segment_length <= trimmed_rlen ->
  1 <= trimmed_rlen / segment_length.
Proof. intros Hpos Hle. apply Z.div_le_lower_bound; lia. Qed.

Lemma chain_tiles (segs : list segment) (a b : Z) :
  chain segs a b ->
  ordered segs /\ contiguous segs /\ non_overlapping segs /\ spans segs a b.
Proof.
  intros Hc. split; [|split; [|split]].
  - eapply chain_ordered; eassumption.
  - eapply chain_contiguous; eassumption.
  - eapply chain_non_overlapping; eassumption.
  - now apply chain_spans.
Qed.

(** In the valid range, with no trimming to a multiple or no 5' trim, the
    planner's result is a chain from [trim5] to the read end, of as many
    windows as segments fit. *)
Lemma determine_read_segments_chain
  (read_length segment_length : Z) (segment_trim : bool) (trim5 trim3 : Z) :
  0 < segment_length ->
  segment_length <= read_length - trim5 - trim3 ->
  segment_trim = false \/ trim5 = 0 ->
  exists segs,
    determine_read_segments read_length segment_length segment_trim trim5 trim3
      = Return segs
    /\ chain segs trim5
         (read_end_of read_length segment_length segment_trim trim5 trim3)
    /\ Z.of_nat (length segs) = (read_length - trim5 - trim3) / segment_length.
Proof.
  intros Hpos Hle Hmode.
  pose proof (num_segments_lower _ _ Hpos Hle) as Hnum.
  pose proof (Z.mul_div_le (read_length - trim5 - trim3) _ Hpos) as Hfloor.
  destruct (Z.eq_dec ((read_length - trim5 - trim3) / segment_length) 1)
    as [Hone|Hmore].
  - exists [(trim5, read_end_of read_length segment_length segment_trim
                       trim5 trim3)].
    split.
    + unfold determine_read_segments, read_end_of.
      replace (segment_length =? 0) with false by (symmetry; apply Z.eqb_neq; lia).
      rewrite Hone. reflexivity.
    + split; [|rewrite Hone; reflexivity].
      cbn [chain fst snd]. repeat split; trivial.
      unfold read_end_of. rewrite Hone.
      destruct Hmode as [->| ->]; [lia|]. destruct segment_trim; lia.
  - rewrite determine_read_segments_grid by lia.
    set (num_segments := (read_length - trim5 - trim3) / segment_length) in *.
    set (n := Z.to_nat (num_segments - 1 - 1)).
    set (read_end :=
           read_end_of read_length segment_length segment_trim trim5 trim3).
    assert (Hn : Z.of_nat n = num_segments - 2) by lia.
    assert (Hend : trim5 + segment_length + Z.of_nat n * segment_length
                   < read_end).
    { unfold read_end, read_end_of. fold num_segments.
      destruct Hmode as [->| ->]; [nia|]. destruct segment_trim; nia. }
    apply Z.ltb_lt in Hend. rewrite Hend. apply Z.ltb_lt in Hend.
    eexists. split; [reflexivity|]. split.
    + eapply chain_app.
      * apply (chain_grid segment_length (S n) Hpos trim5).
      * cbn [chain fst snd]. repeat split; lia.
    + rewrite length_app, grid_length. cbn [length]. lia.
Qed.

(** C1 (as amended): for every read_length, trim5, trim3 with
    trim5 + trim3 < read_length and every segment_length with
    MIN_SEGMENT_LENGTH <= segment_length <= read_length - trim5 - trim3
    (MIN_SEGMENT_LENGTH being positive), when segment_trim is false or
    trim5 is 0 the list returned by determine_read_segments is ordered
    left to right, contiguous, free of overlaps, and the union of its
    half-open windows is exactly [trim5, read_end), where read_end is
    segment_length * floor((read_length - trim5 - trim3) / segment_length)
    when segment_trim is true and read_length - trim3 otherwise. *)
Theorem determine_read_segments_tiles
  (cfg : config) (read_length segment_length : Z) (segment_trim : bool)
  (trim5 trim3 : Z) :
  0 < MIN_SEGMENT_LENGTH cfg ->
  trim5 + trim3 < read_length ->
  MIN_SEGMENT_LENGTH cfg <= segment_length <= read_length - trim5 - trim3 ->
  segment_trim = false \/ trim5 = 0 ->
  tiles_read read_length segment_length segment_trim trim5 trim3.
Proof.
  intros Hmin Htrim Hrange Hmode.
  destruct (determine_read_segments_chain read_length segment_length
              segment_trim trim5 trim3) as (segs & Hrun & Hchain & _);
    [lia | lia | assumption |].
  exists segs. split; [exact Hrun|]. now apply chain_tiles.
Qed.

(** The claim C1 as first stated fails with a 5' trim longer than a
    segment in trim mode: for 100-base reads, segments of 25,
    segment_trim set, trim5 = 30 and trim3 = 0 (admissible whenever
    MIN_SEGMENT_LENGTH is at most 25) the planner returns the single window
    (30, 55), whose union is not [30, 50). *)
Lemma determine_read_segments_tiles_counterexample :
  30 + 0 < 100
  /\ 25 <= 100 - 30 - 0
  /\ determine_read_segments 100 25 true 30 0 = Return [(30, 55)]
  /\ read_end_of 100 25 true 30 0 = 50
  /\ ~ tiles_read 100 25 true 30 0.
Proof.
  repeat split; try lia; try reflexivity.
  intros (segs & Hrun & _ & _ & _ & Hspan).
  vm_compute in Hrun. injection Hrun as <-.
  assert (Hin : Exists (inside 50) [(30, 55)])
    by (apply Exists_cons_hd; unfold inside; cbn; lia).
  apply Hspan in Hin. vm_compute in Hin. destruct Hin as [_ Hlt].
  discriminate Hlt.
Qed.

(** C4 (the code at the failing input): for 100-base reads, segments of
    25, segment_trim set, trim5 = 60 and trim3 = 0, the planner returns
    the single boundary (60, 25), whose start is not below its end: the
    boundaries do not all satisfy 0 <= start < end <= read_length. *)
Theorem determine_read_segments_inverted_boundary :
  60 + 0 < 100
  /\ 25 <= 100 - 60 - 0
  /\ determine_read_segments 100 25 true 60 0 = Return [(60, 25)]
  /\ ~ boundaries_in_read 100 [(60, 25)].
Proof.
  repeat split; try lia; try reflexivity.
  intros Hall. inversion Hall as [|w l Hw _]; subst.
  cbn in Hw. lia.
Qed.

(** C6: determine_read_segments(76, 25, False, 0, 0) returns exactly
    [(0,25), (25,50), (50,76)]: three boundaries, the last one taking the
    remaining 26 bases. *)
Theorem determine_read_segments_76_25 :
  determine_read_segments 76 25 false 0 0
  = Return [(0, 25); (25, 50); (50, 76)]
  /\ 76 - 50 = 26.
Proof. split; reflexivity. Qed.

(** C7: for read_length = 30, segment_length = 25 and no trimming at either
    end, one segment fits and determine_read_segments returns [(0,30)] when
    segment_trim is False, [(0,25)] when it is True. *)
Theorem determine_read_segments_30_25 :
  (30 - 0 - 0) / 25 = 1
  /\ determine_read_segments 30 25 false 0 0 = Return [(0, 30)]
  /\ determine_read_segments 30 25 true 0 0 = Return [(0, 25)].
Proof. repeat split; reflexivity. Qed.

(** C10 (as amended): when the trimmed read is shorter than one segment
    (segment_length >= 1 and 0 <= read_length - trim5 - trim3 <
    segment_length, so that no segment fits), and segment_trim is false
    or trim5 + segment_length >= 0, the planner does not fail: it returns
    the single boundary (trim5, trim5 + segment_length), whose end lies
    beyond read_length - trim3. *)
Theorem determine_read_segments_short_read
  (read_length segment_length : Z) (segment_trim : bool) (trim5 trim3 : Z) :
  segment_trim = false \/ 0 <= trim5 + segment_length ->
  1 <= segment_length ->
  0 <= read_length - trim5 - trim3 ->
  read_length - trim5 - trim3 < segment_length ->
  (read_length - trim5 - trim3) / segment_length = 0
  /\ determine_read_segments read_length segment_length segment_trim trim5 trim3
     = Return [(trim5, trim5 + segment_length)]
  /\ read_length - trim3 < trim5 + segment_length.
Proof.
  intros Hmode Hsl Hlow Hhigh.
  assert (Hnum : (read_length - trim5 - trim3) / segment_length = 0)
    by (apply Z.div_small; lia).
  split; [exact Hnum|]. split; [|lia].
  rewrite determine_read_segments_grid by lia.
  unfold read_end_of. rewrite Hnum. cbn [Z.to_nat Z.sub Z.opp Z.add Z.pos_sub
    Z.of_nat Z.mul grid].
  replace (trim5 + segment_length + 0) with (trim5 + segment_length) by lia.
  destruct segment_trim.
  - destruct Hmode as [Hmode|Hmode]; [discriminate Hmode|].
    replace (segment_length * 0) with 0 by lia.
    replace (trim5 + segment_length <? 0) with false
      by (symmetry; apply Z.ltb_ge; lia).
    reflexivity.
  - replace (trim5 + segment_length <? read_length - trim3) with false
      by (symmetry; apply Z.ltb_ge; lia).
    reflexivity.
Qed.

(** The claim C10 as first stated fails in trim mode when trim5 +
    segment_length is negative: for read_length = 10, segment_length = 25,
    segment_trim set, trim5 = -30 and trim3 = 20 (trimmed length 20, no
    segment fits) the planner returns the two boundaries (-30, -5) and
    (-5, 0), not the single boundary (-30, -5). *)
Lemma determine_read_segments_short_read_counterexample :
  1 <= 25
  /\ 0 <= 10 - -30 - 20
  /\ 10 - -30 - 20 < 25
  /\ determine_read_segments 10 25 true (-30) 20
     = Return [(-30, -5); (-5, 0)]
  /\ determine_read_segments 10 25 true (-30) 20
     <> Return [(-30, -30 + 25)].
Proof.
  repeat split; try lia; try reflexivity. discriminate.
Qed.

(** Instances of the planner theorems. *)
Lemma determine_read_segments_tiles_witness :
  tiles_read 76 25 true 0 1.
Proof.
  apply (determine_read_segments_tiles sample_config 76 25 true 0 1);
    cbn; [lia | lia | lia | right; reflexivity].
Defined.

Lemma determine_read_segments_short_read_witness :
  (10 - 0 - 0) / 25 = 0
  /\ determine_read_segments 10 25 true 0 0 = Return [(0, 0 + 25)]
  /\ 10 - 0 < 0 + 25.
Proof.
  apply (determine_read_segments_short_read 10 25 true 0 0);
    [right; lia | lia | lia | lia].
Defined.

(** ** Messages *)

Lemma string_of_uint_paren_free (d : Decimal.uint) :
  paren_free (NilEmpty.string_of_uint d).
Proof.
  induction d; cbn [NilEmpty.string_of_uint paren_free]; try split; trivial;
    discriminate.
Qed.

Lemma str_paren_free (n : Z) : paren_free (str n).
Proof.
  unfold str, NilZero.string_of_int, NilZero.string_of_uint.
  destruct (Z.to_int n) as [d|d]; destruct d; cbn [paren_free];
    repeat split; try discriminate; try apply string_of_uint_paren_free.
Qed.

(** Two texts that agree up to their first closing parenthesis agree on
    both sides of it. *)
Lemma append_paren_split (s1 : string) :
  forall s2 r1 r2,
    paren_free s1 -> paren_free s2 ->
    (s1 ++ String ")" r1 = s2 ++ String ")" r2)%string ->
    s1 = s2 /\ r1 = r2.
Proof.
  induction s1 as [|c s1 IH]; intros [|d s2] r1 r2 H1 H2 Heq;
    cbn [String.append paren_free] in *.
  - injection Heq as ->. now split.
  - injection Heq as <- _. destruct H2 as [H2 _]. congruence.
  - injection Heq as -> _. destruct H1 as [H1 _]. congruence.
  - injection Heq as -> Heq. destruct H1 as [_ H1], H2 as [_ H2].
    destruct (IH _ _ _ H1 H2 Heq) as [-> ->]. now split.
Qed.

(** Whatever the numbers, a too-small text is never a too-long text. *)
Lemma messages_distinct (a b c d : Z) :
  too_small_message a b <> too_long_message c d.
Proof.
  unfold too_small_message, too_long_message. intros Heq.
  cbn [String.append] in Heq.
  repeat (injection Heq as Heq).
  apply append_paren_split in Heq; try apply str_paren_free.
  destruct Heq as [_ Heq]. discriminate Heq.
Qed.

(** ** Input validation *)

Lemma probe_read_lengths_all_files (w : world) (fastq_files : list string) :
  Forall (fun f => isfile w f = true) fastq_files ->
  forall mate read_lengths,
    probe_read_lengths w mate fastq_files read_lengths
    = Return (read_lengths ++ map (get_read_length w) fastq_files).
Proof.
  induction 1 as [|f rest Hf _ IH]; intros mate read_lengths;
    cbn [probe_read_lengths map].
  - now rewrite app_nil_r.
  - rewrite Hf, IH, <- app_assoc. reflexivity.
Qed.

Lemma len_set_common (rlen : Z) (items : list Z) :
  Forall (eq rlen) items -> (len_set items <= 1)%nat.
Proof.
  unfold len_set.
  induction 1 as [|x rest <- Hrest IH]; cbn [nodup length]; [lia|].
  destruct (in_dec Z.eq_dec rlen rest) as [Hin|Hout]; [exact IH|].
  destruct rest as [|y rest]; cbn; [lia|].
  inversion Hrest; subst. exfalso. apply Hout. now left.
Qed.

Lemma len_set_unequal (items : list Z) (a b : Z) :
  In a items -> In b items -> a <> b -> (1 < len_set items)%nat.
Proof.
  unfold len_set. intros Ha Hb Hab.
  apply (nodup_In Z.eq_dec) in Ha, Hb.
  destruct (nodup Z.eq_dec items) as [|x [|y rest]]; cbn in *; try lia;
    intuition congruence.
Qed.

(** With every file present and one common read length, validation comes
    down to the two range checks, in the order of the source. *)
Lemma check_fastq_files_common
  (cfg : config) (w : world) (fastq_files : list string)
  (segment_length trim5 trim3 rlen : Z) :
  fastq_files <> [] ->
  Forall (fun f => isfile w f = true) fastq_files ->
  Forall (fun f => get_read_length w f = rlen) fastq_files ->
  check_fastq_files cfg w fastq_files segment_length trim5 trim3
  = if segment_length <? MIN_SEGMENT_LENGTH cfg then
      Raise (AlignError
               (too_small_message segment_length (MIN_SEGMENT_LENGTH cfg)))
    else if segment_length >? rlen - trim5 - trim3 then
      Raise (AlignError
               (too_long_message segment_length (rlen - trim5 - trim3)))
    else Return (Int rlen).
Proof.
  intros Hne Hfiles Hlen. unfold check_fastq_files.
  rewrite probe_read_lengths_all_files by assumption. cbn [app].
  assert (Hall : Forall (eq rlen) (map (get_read_length w) fastq_files)).
  { apply Forall_map. revert Hlen. apply Forall_impl. intros f Hf. now symmetry. }
  pose proof (len_set_common _ _ Hall) as Hset.
  replace (1 <? len_set (map (get_read_length w) fastq_files))%nat with false
    by (symmetry; apply Nat.ltb_ge; exact Hset).
  destruct fastq_files as [|f rest]; [contradiction|]. cbn [map first].
  inversion Hlen as [|? ? Hf _]; subst. reflexivity.
Qed.

(** C5: for every non-empty list of existing input files with a common
    probed read length rlen, check_fastq_files raises the too-small
    AlignError when segment_length < MIN_SEGMENT_LENGTH; failing that, it
    raises the too-long AlignError when segment_length > rlen - trim5 -
    trim3; otherwise it returns rlen.  The two errors carry texts that
    never coincide. *)
Theorem check_fastq_files_range_checks
  (cfg : config) (w : world) (fastq_files : list string)
  (segment_length trim5 trim3 rlen : Z) :
  fastq_files <> [] ->
  Forall (fun f => isfile w f = true) fastq_files ->
  Forall (fun f => get_read_length w f = rlen) fastq_files ->
  (segment_length < MIN_SEGMENT_LENGTH cfg ->
   check_fastq_files cfg w fastq_files segment_length trim5 trim3
   = Raise (AlignError
              (too_small_message segment_length (MIN_SEGMENT_LENGTH cfg))))
  /\ (MIN_SEGMENT_LENGTH cfg <= segment_length ->
      segment_length > rlen - trim5 - trim3 ->
      check_fastq_files cfg w fastq_files segment_length trim5 trim3
      = Raise (AlignError
                 (too_long_message segment_length (rlen - trim5 - trim3))))
  /\ (MIN_SEGMENT_LENGTH cfg <= segment_length <= rlen - trim5 - trim3 ->
      check_fastq_files cfg w fastq_files segment_length trim5 trim3
      = Return (Int rlen))
  /\ (forall a b c d, too_small_message a b <> too_long_message c d).
Proof.
  intros Hne Hfiles Hlen.
  rewrite (check_fastq_files_common cfg w fastq_files segment_length
             trim5 trim3 rlen Hne Hfiles Hlen).
  repeat split.
  - intros H. apply Z.ltb_lt in H. now rewrite H.
  - intros H1 H2. apply Z.ltb_ge in H1. apply Z.gtb_gt in H2.
    now rewrite H1, H2.
  - intros [H1 H2]. apply Z.ltb_ge in H1.
    rewrite H1. destruct (segment_length >? rlen - trim5 - trim3) eqn:H3;
      [apply Z.gtb_gt in H3; lia | reflexivity].
  - intros a b c d. apply messages_distinct.
Qed.

Lemma check_fastq_files_range_checks_witness :
  (25 < 20 ->
   check_fastq_files sample_config aligner_fails
     ["mate1.fq"; "mate2.fq"]%string 25 0 0
   = Raise (AlignError (too_small_message 25 20)))
  /\ (20 <= 25 -> 25 > 76 - 0 - 0 ->
      check_fastq_files sample_config aligner_fails
        ["mate1.fq"; "mate2.fq"]%string 25 0 0
      = Raise (AlignError (too_long_message 25 (76 - 0 - 0))))
  /\ (20 <= 25 <= 76 - 0 - 0 ->
      check_fastq_files sample_config aligner_fails
        ["mate1.fq"; "mate2.fq"]%string 25 0 0
      = Return (Int 76))
  /\ (forall a b c d, too_small_message a b <> too_long_message c d).
Proof.
  apply (check_fastq_files_range_checks sample_config aligner_fails
           ["mate1.fq"; "mate2.fq"]%string 25 0 0 76).
  - discriminate.
  - repeat constructor.
  - repeat constructor.
Defined.

(** ** The pipeline *)

(** One step of a run: decide the next point at which the program may
    raise. *)
Ltac step_io :=
  match goal with
  | |- context [can_spawn ?w ?a] => destruct (can_spawn w a)
  | |- context [max_of ?l] => destruct (max_of l)
  | |- context [can_open ?w ?p] => destruct (can_open w p)
  end.

(** All runs of [align_segments] from the empty trace, one goal each. *)
Ltac run_align_segments :=
  unfold align_segments, bind, popen, open, lift, emit, wait, ret, raise;
  cbv zeta;
  cbn [with_returncode isfile get_read_length sys_executable script_path
       can_open can_spawn returncode first];
  match goal with
  | |- context [match ?lf with Some _ => _ | None => _ end] =>
      is_var lf; destruct lf
  | _ => idtac
  end;
  repeat (step_io; cbn [app]).

Lemma probe_read_lengths_with_returncode
  (w : world) (status : stage -> Z) (fastq_files : list string) :
  forall mate read_lengths,
    probe_read_lengths (with_returncode w status) mate fastq_files read_lengths
    = probe_read_lengths w mate fastq_files read_lengths.
Proof.
  induction fastq_files as [|f rest IH]; intros mate read_lengths;
    cbn [probe_read_lengths with_returncode isfile get_read_length];
    [reflexivity|].
  now rewrite IH.
Qed.

Lemma check_fastq_files_with_returncode
  (cfg : config) (w : world) (status : stage -> Z)
  (fastq_files : list string) (segment_length trim5 trim3 : Z) :
  check_fastq_files cfg (with_returncode w status) fastq_files
    segment_length trim5 trim3
  = check_fastq_files cfg w fastq_files segment_length trim5 trim3.
Proof.
  unfold check_fastq_files. now rewrite probe_read_lengths_with_returncode.
Qed.

(** C9: in every run of align_segments that starts all three stages, the
    wait() calls are, in this order, on the merge stage, on the aligner
    and on the segmenter, each returning the exit status of its stage;
    they come after every other event of the run, and align_segments
    then returns. *)
Theorem align_segments_awaits_in_reverse
  (w : world) (fastq_files : list string) (output_bam_file : string)
  (segments : list segment) (fastq_format : string)
  (multihits mismatches num_threads : Z)
  (bowtie_bin bowtie_index bowtie_mode : string)
  (best_strata : bool) (log_file : option string)
  (o : outcome unit) (t : list event) :
  align_segments w fastq_files output_bam_file segments fastq_format
    multihits mismatches num_threads bowtie_bin bowtie_index bowtie_mode
    best_strata log_file [] = (o, t) ->
  all_started t = true ->
  waits t = [Wait Merger (returncode w Merger);
             Wait Aligner (returncode w Aligner);
             Wait Segmenter (returncode w Segmenter)]
  /\ t = filter (fun e => negb (is_wait e)) t ++ waits t
  /\ o = Return tt.
Proof.
  destruct fastq_files as [|fastq_file0 rest]; run_align_segments.
  all: intros H; injection H as <- <-; cbn; intros Hs; try discriminate Hs.
  all: repeat split; reflexivity.
Qed.


(** The outcome of [align] does not depend on the exit statuses of the
    stages. *)
Lemma align_with_returncode
  (cfg : config) (w : world) (status : stage -> Z)
  (fastq_files : list string) (fastq_format bowtie_index output_bam_file : string)
  (bowtie_bin : string) (num_processors segment_length : Z)
  (segment_trim : bool) (trim5 trim3 multihits mismatches : Z)
  (bowtie_mode : string) (best_strata : bool) (log_file : option string) :
  fst (align cfg (with_returncode w status) fastq_files fastq_format
         bowtie_index output_bam_file bowtie_bin num_processors
         segment_length segment_trim trim5 trim3 multihits mismatches
         bowtie_mode best_strata log_file [])
  = fst (align cfg w fastq_files fastq_format bowtie_index output_bam_file
           bowtie_bin num_processors segment_length segment_trim trim5 trim3
           multihits mismatches bowtie_mode best_strata log_file []).
Proof.
  unfold align, bind, lift. rewrite check_fastq_files_with_returncode.
  destruct (check_fastq_files cfg w fastq_files segment_length trim5 trim3)
    as [read_length|e]; [|reflexivity].
  destruct (determine_read_segments (int_of read_length) segment_length
              segment_trim trim5 trim3) as [segments|e]; [|reflexivity].
  destruct fastq_files as [|fastq_file0 rest]; run_align_segments.
  all: reflexivity.
Qed.

(** C2 (as amended): in every run of align in which the three stage
    processes are started, align waits for the three of them and returns
    JOB_SUCCESS, whatever their exit statuses: the same run with any other
    exit statuses of the stages returns JOB_SUCCESS as well. *)
Theorem align_returns_job_success
  (cfg : config) (w : world)
  (fastq_files : list string) (fastq_format bowtie_index output_bam_file : string)
  (bowtie_bin : string) (num_processors segment_length : Z)
  (segment_trim : bool) (trim5 trim3 multihits mismatches : Z)
  (bowtie_mode : string) (best_strata : bool) (log_file : option string)
  (o : outcome Z) (t : list event) :
  align cfg w fastq_files fastq_format bowtie_index output_bam_file bowtie_bin
    num_processors segment_length segment_trim trim5 trim3 multihits
    mismatches bowtie_mode best_strata log_file [] = (o, t) ->
  all_started t = true ->
  o = Return (JOB_SUCCESS cfg)
  /\ waits t = [Wait Merger (returncode w Merger);
                Wait Aligner (returncode w Aligner);
                Wait Segmenter (returncode w Segmenter)]
  /\ forall status,
      fst (align cfg (with_returncode w status) fastq_files fastq_format
             bowtie_index output_bam_file bowtie_bin num_processors
             segment_length segment_trim trim5 trim3 multihits mismatches
             bowtie_mode best_strata log_file [])
      = Return (JOB_SUCCESS cfg).
Proof.
  intros Hrun Hs.
  assert (Hboth : o = Return (JOB_SUCCESS cfg)
                  /\ waits t = [Wait Merger (returncode w Merger);
                                Wait Aligner (returncode w Aligner);
                                Wait Segmenter (returncode w Segmenter)]).
  { revert Hrun Hs. unfold align, bind, lift.
    destruct (check_fastq_files cfg w fastq_files segment_length trim5 trim3)
      as [read_length|e];
      [|intros H; injection H as <- <-; discriminate].
    destruct (determine_read_segments (int_of read_length) segment_length
                segment_trim trim5 trim3) as [segments|e];
      [|intros H; injection H as <- <-; discriminate].
    destruct fastq_files as [|fastq_file0 rest]; run_align_segments.
    all: intros H; injection H as <- <-; cbn; intros Hs; try discriminate Hs.
    all: split; reflexivity. }
  destruct Hboth as [Ho Hw]. repeat split; trivial.
  intros status. rewrite align_with_returncode, Hrun. exact Ho.
Qed.

Lemma align_segments_awaits_in_reverse_witness :
  waits (snd single_end_run)
  = [Wait Merger (returncode aligner_fails Merger);
     Wait Aligner (returncode aligner_fails Aligner);
     Wait Segmenter (returncode aligner_fails Segmenter)]
  /\ snd single_end_run
     = filter (fun e => negb (is_wait e)) (snd single_end_run)
         ++ waits (snd single_end_run)
  /\ fst single_end_run = Return tt.
Proof.
  apply (align_segments_awaits_in_reverse aligner_fails ["reads.fq"%string]
           "out.bam" [(0, 25); (25, 50); (50, 76)] "phred33-quals" 40 2 2
           "bowtie" "hg19" "-n" false None
           (fst single_end_run) (snd single_end_run));
    reflexivity.
Defined.


Lemma align_returns_job_success_witness :
  fst logged_run = Return (JOB_SUCCESS sample_config)
  /\ waits (snd logged_run)
     = [Wait Merger (returncode aligner_fails Merger);
        Wait Aligner (returncode aligner_fails Aligner);
        Wait Segmenter (returncode aligner_fails Segmenter)]
  /\ forall status,
      fst (align sample_config (with_returncode aligner_fails status)
             ["reads.fq"%string] "phred33-quals" "hg19" "out.bam" "bowtie"
             2 25 false 0 0 40 2 "-v" true (Some "bowtie.log"%string) [])
      = Return (JOB_SUCCESS sample_config).
Proof.
  apply (align_returns_job_success sample_config aligner_fails
           ["reads.fq"%string] "phred33-quals" "hg19" "out.bam" "bowtie"
           2 25 false 0 0 40 2 "-v" true (Some "bowtie.log"%string)
           (fst logged_run) (snd logged_run));
    reflexivity.
Defined.

(** The claim C2 as first stated fails when only the aligner fails: with
    76-base single-end reads, segments of 25 and the aligner ending with
    status 1 (the segmenter and the merger with 0), whatever the
    configuration with MIN_SEGMENT_LENGTH at most 25, all three stages
    are started and align returns JOB_SUCCESS, so its result does not
    reflect the exit statuses. *)
Lemma align_ignores_aligner_failure :
  returncode aligner_fails Segmenter = 0
  /\ returncode aligner_fails Aligner = 1
  /\ returncode aligner_fails Merger = 0
  /\ forall cfg,
      MIN_SEGMENT_LENGTH cfg <= 25 ->
      let run :=
        align cfg aligner_fails ["reads.fq"%string] "phred33-quals" "hg19"
          "out.bam" "bowtie" 2 25 false 0 0 40 2 "-n" false None [] in
      fst run = Return (JOB_SUCCESS cfg)
      /\ all_started (snd run) = true
      /\ ~ reflects_exit_statuses cfg aligner_fails run.
Proof.
  split; [reflexivity|]. split; [reflexivity|]. split; [reflexivity|].
  intros cfg Hmin.
  assert (Hcheck :
            check_fastq_files cfg aligner_fails ["reads.fq"%string] 25 0 0
            = Return (Int 76)).
  { rewrite (check_fastq_files_common cfg aligner_fails ["reads.fq"%string]
               25 0 0 76); [|discriminate|repeat constructor..].
    apply Z.ltb_ge in Hmin. rewrite Hmin. reflexivity. }
  assert (Hrun :
            align cfg aligner_fails ["reads.fq"%string] "phred33-quals" "hg19"
              "out.bam" "bowtie" 2 25 false 0 0 40 2 "-n" false None []
            = (Return (JOB_SUCCESS cfg),
               [Popen Segmenter
                  ["python"; "chimerascan/deprecated/segment_reads.py";
                   "0,25,50"; "25,50,76"; "reads.fq"]%string None true None;
                Popen Aligner
                  ["bowtie"; "-q"; "-S"; "-p"; "2"; "--tryhard";
                   "--phred33-quals"; "-k"; "40"; "-m"; "40"; "-n"; "2";
                   "-l"; "26"; "hg19"; "-"]%string (Some Segmenter) true None;
                Popen Merger
                  ["python";
                   "chimerascan/deprecated/join_segmented_alignments.py";
                   "--sr"; "-"; "reads.fq"; "out.bam"]%string
                  (Some Aligner) false None;
                Wait Merger 0; Wait Aligner 1; Wait Segmenter 0])).
  { unfold align, bind at 1, lift at 1. rewrite Hcheck. reflexivity. }
  cbv zeta. rewrite Hrun. cbn [fst snd]. repeat split.
  unfold reflects_exit_statuses. cbn [fst snd]. intros Hclaim.
  destruct (Hclaim eq_refl) as [Hzero _].
  specialize (Hzero eq_refl Aligner). discriminate Hzero.
Qed.

(** C3 (the code at the failing input): with two existing mate files of
    76 and 50 bases, check_fastq_files does not raise but returns False,
    and align carries on with it as a read length of 0: it plans the
    single segment (0, 25), starts the three stages, waits for them and
    returns JOB_SUCCESS. *)
Theorem align_proceeds_on_unequal_read_lengths (cfg : config) :
  get_read_length unequal_mates "mate1.fq" = 76
  /\ get_read_length unequal_mates "mate2.fq" = 50
  /\ check_fastq_files cfg unequal_mates ["mate1.fq"; "mate2.fq"]%string 25 0 0
     = Return (Bool false)
  /\ determine_read_segments (int_of (Bool false)) 25 false 0 0
     = Return [(0, 25)]
  /\ align cfg unequal_mates ["mate1.fq"; "mate2.fq"]%string "phred33-quals"
       "hg19" "out.bam" "bowtie" 2 25 false 0 0 40 2 "-n" false None []
     = (Return (JOB_SUCCESS cfg),
        [Popen Segmenter
           ["python"; "chimerascan/deprecated/segment_reads.py"; "0"; "25";
            "mate1.fq"; "mate2.fq"]%string None true None;
         Popen Aligner
           ["bowtie"; "-q"; "-S"; "-p"; "2"; "--tryhard"; "--phred33-quals";
            "-k"; "40"; "-m"; "40"; "-n"; "2"; "-l"; "25"; "hg19"; "-"]%string
           (Some Segmenter) true None;
         Popen Merger
           ["python"; "chimerascan/deprecated/join_segmented_alignments.py";
            "-"; "mate1.fq"; "out.bam"]%string (Some Aligner) false None;
         Wait Merger 0; Wait Aligner 0; Wait Segmenter 0]).
Proof. repeat split. Qed.

(** ** Further properties *)

(** determine_read_segments(50, 25, True, 0, 0) returns exactly
    [(0,25), (25,50)]: an exact multiple leaves no shorter last window. *)
Theorem determine_read_segments_50_25 :
  determine_read_segments 50 25 true 0 0 = Return [(0, 25); (25, 50)].
Proof. reflexivity. Qed.

(** With trims that are not negative and a segment length in the valid
    range, when segment_trim is false or trim5 is 0, the planner returns
    as many boundaries as segments fit in the trimmed read, and every one
    of them satisfies 0 <= start < end <= read_length. *)
Theorem determine_read_segments_in_read
  (read_length segment_length : Z) (segment_trim : bool) (trim5 trim3 : Z) :
  0 <= trim5 -> 0 <= trim3 ->
  0 < segment_length ->
  segment_length <= read_length - trim5 - trim3 ->
  segment_trim = false \/ trim5 = 0 ->
  exists segs,
    determine_read_segments read_length segment_length segment_trim trim5 trim3
      = Return segs
    /\ boundaries_in_read read_length segs
    /\ Z.of_nat (length segs) = (read_length - trim5 - trim3) / segment_length.
Proof.
  intros H5 H3 Hpos Hle Hmode.
  destruct (determine_read_segments_chain read_length segment_length
              segment_trim trim5 trim3 Hpos Hle Hmode)
    as (segs & Hrun & Hchain & Hcount).
  exists segs. split; [exact Hrun|]. split; [|exact Hcount].
  pose proof (Z.mul_div_le (read_length - trim5 - trim3) _ Hpos) as Hfloor.
  apply Forall_forall. intros w Hw.
  destruct (chain_bounds _ _ _ w Hchain Hw) as (Hlo & Hne & Hhi).
  assert (read_end_of read_length segment_length segment_trim trim5 trim3
          <= read_length)
    by (unfold read_end_of; destruct segment_trim; lia).
  lia.
Qed.

Lemma determine_read_segments_in_read_witness :
  exists segs,
    determine_read_segments 76 25 false 5 3 = Return segs
    /\ boundaries_in_read 76 segs
    /\ Z.of_nat (length segs) = (76 - 5 - 3) / 25.
Proof.
  apply (determine_read_segments_in_read 76 25 false 5 3);
    [lia | lia | lia | lia | left; reflexivity].
Defined.

(** When every input file exists and two of them have different probed
    read lengths, check_fastq_files raises nothing and returns False,
    whatever the segment length and the trims. *)
Theorem check_fastq_files_unequal
  (cfg : config) (w : world) (fastq_files : list string)
  (segment_length trim5 trim3 : Z) (f g : string) :
  Forall (fun f => isfile w f = true) fastq_files ->
  In f fastq_files -> In g fastq_files ->
  get_read_length w f <> get_read_length w g ->
  check_fastq_files cfg w fastq_files segment_length trim5 trim3
  = Return (Bool false).
Proof.
  intros Hfiles Hf Hg Hdiff. unfold check_fastq_files.
  rewrite probe_read_lengths_all_files by assumption. cbn [app].
  assert (Hset : (1 < len_set (map (get_read_length w) fastq_files))%nat).
  { apply (len_set_unequal _ (get_read_length w f) (get_read_length w g));
      trivial; now apply in_map. }
  apply Nat.ltb_lt in Hset. now rewrite Hset.
Qed.

Lemma check_fastq_files_unequal_witness :
  check_fastq_files sample_config unequal_mates
    ["mate1.fq"; "mate2.fq"]%string 25 0 0
  = Return (Bool false).
Proof.
  apply (check_fastq_files_unequal sample_config unequal_mates
           ["mate1.fq"; "mate2.fq"]%string 25 0 0 "mate1.fq" "mate2.fq").
  - repeat constructor.
  - left. reflexivity.
  - right. left. reflexivity.
  - discriminate.
Defined.

Lemma probe_read_lengths_missing
  (w : world) (present : list string) (f : string) (rest : list string) :
  Forall (fun f => isfile w f = true) present ->
  isfile w f = false ->
  forall mate read_lengths,
    probe_read_lengths w mate (present ++ f :: rest) read_lengths
    = Raise (AlignError (not_valid_message (mate + length present) f)).
Proof.
  intros Hpresent Hmissing.
  induction Hpresent as [|g present Hg _ IH]; intros mate read_lengths;
    cbn [probe_read_lengths app length].
  - rewrite Hmissing, Nat.add_0_r. reflexivity.
  - rewrite Hg, IH.
    replace (S mate + length present)%nat
      with (mate + S (length present))%nat by lia.
    reflexivity.
Qed.

(** The first path that is not a file makes check_fastq_files raise an
    AlignError naming its position (counted from 0) and the path, whatever
    follows it in the list. *)
Theorem check_fastq_files_missing_file
  (cfg : config) (w : world) (present : list string) (f : string)
  (rest : list string) (segment_length trim5 trim3 : Z) :
  Forall (fun f => isfile w f = true) present ->
  isfile w f = false ->
  check_fastq_files cfg w (present ++ f :: rest) segment_length trim5 trim3
  = Raise (AlignError (not_valid_message (length present) f)).
Proof.
  intros Hpresent Hmissing. unfold check_fastq_files.
  now rewrite (probe_read_lengths_missing w present f rest Hpresent Hmissing).
Qed.

Lemma check_fastq_files_missing_file_witness :
  check_fastq_files sample_config
    (with_isfile aligner_fails (fun f => negb (String.eqb f "mate2.fq")))
    (["mate1.fq"%string] ++ "mate2.fq"%string :: []) 25 0 0
  = Raise (AlignError "mate '1' fastq file 'mate2.fq' is not valid").
Proof.
  apply (check_fastq_files_missing_file sample_config
           (with_isfile aligner_fails
              (fun f => negb (String.eqb f "mate2.fq")))
           ["mate1.fq"%string] "mate2.fq" [] 25 0 0).
  - repeat constructor.
  - reflexivity.
Defined.

(** ** The planner on all integers *)

Lemma widths_grid (n : nat) (segment_length : Z) :
  forall start, widths (grid n segment_length start) = repeat segment_length n.
Proof.
  unfold widths.
  induction n as [|n IH]; intros start; cbn [grid map repeat fst snd];
    [reflexivity|].
  rewrite IH. f_equal. lia.
Qed.

Lemma widths_app (l1 l2 : list segment) :
  widths (l1 ++ l2) = widths l1 ++ widths l2.
Proof. unfold widths. apply map_app. Qed.

Lemma determine_read_segments_nonempty
  (read_length segment_length : Z) (segment_trim : bool) (trim5 trim3 : Z) :
  segment_length <> 0 ->
  exists stop rest,
    determine_read_segments read_length segment_length segment_trim
      trim5 trim3
    = Return ((trim5, stop) :: rest).
Proof.
  intros Hsl.
  destruct (Z.eq_dec ((read_length - trim5 - trim3) / segment_length) 1)
    as [Hone|Hmore].
  - unfold determine_read_segments.
    apply Z.eqb_neq in Hsl. rewrite Hsl, Hone. cbn [Z.eqb Pos.eqb].
    eexists _, []. reflexivity.
  - rewrite determine_read_segments_grid by assumption.
    cbn [grid app]. destruct (_ <? _); eexists _, _; reflexivity.
Qed.


Lemma widths_without_trim
  (read_length segment_length trim5 trim3 : Z) :
  0 < segment_length ->
  segment_length <= read_length - trim5 - trim3 ->
  let trimmed_rlen := read_length - trim5 - trim3 in
  exists segs,
    determine_read_segments read_length segment_length false trim5 trim3
    = Return segs
    /\ widths segs
       = repeat segment_length (Z.to_nat (trimmed_rlen / segment_length - 1))
           ++ [segment_length + trimmed_rlen mod segment_length]
    /\ segment_length + trimmed_rlen mod segment_length < 2 * segment_length.
Proof.
  intros Hpos Hle trimmed_rlen.
  pose proof (num_segments_lower _ _ Hpos Hle) as Hnum.
  pose proof (Z.div_mod trimmed_rlen segment_length) as Hdm.
  pose proof (Z.mod_pos_bound trimmed_rlen segment_length Hpos) as Hmod.
  fold trimmed_rlen in Hnum.
  destruct (Z.eq_dec (trimmed_rlen / segment_length) 1) as [Hone|Hmore].
  - eexists. split; [|split; [|lia]].
    + unfold determine_read_segments. fold trimmed_rlen.
      replace (segment_length =? 0) with false
        by (symmetry; apply Z.eqb_neq; lia).
      rewrite Hone. reflexivity.
    + rewrite Hone. cbn [Z.sub Z.opp Z.add Z.pos_sub Z.to_nat repeat app
                         widths map fst snd].
      f_equal. subst trimmed_rlen. nia.
  - rewrite determine_read_segments_grid by (fold trimmed_rlen; lia).
    fold trimmed_rlen.
    set (n := Z.to_nat (trimmed_rlen / segment_length - 1 - 1)).
    assert (Hn : Z.of_nat n = trimmed_rlen / segment_length - 2) by lia.
    unfold read_end_of.
    replace (trim5 + segment_length + Z.of_nat n * segment_length
             <? read_length - trim3) with true
      by (symmetry; apply Z.ltb_lt; subst trimmed_rlen; nia).
    eexists. split; [reflexivity|]. split; [|lia].
    rewrite widths_app, widths_grid.
    replace (Z.to_nat (trimmed_rlen / segment_length - 1)) with (S n) by lia.
    unfold widths. cbn [map fst snd]. do 2 f_equal. subst trimmed_rlen. nia.
Qed.

(** Without trimming to a multiple and with a segment length in the valid
    range, every window but the last is exactly segment_length wide, and
    the last one takes the remainder as well: its width is segment_length
    + (trimmed length mod segment_length), below twice segment_length. *)
Theorem determine_read_segments_widths
  (read_length segment_length trim5 trim3 : Z) :
  0 < segment_length ->
  segment_length <= read_length - trim5 - trim3 ->
  let trimmed_rlen := read_length - trim5 - trim3 in
  exists segs,
    determine_read_segments read_length segment_length false trim5 trim3
    = Return segs
    /\ widths segs
       = repeat segment_length (Z.to_nat (trimmed_rlen / segment_length - 1))
           ++ [segment_length + trimmed_rlen mod segment_length]
    /\ segment_length + trimmed_rlen mod segment_length < 2 * segment_length.
Proof. apply widths_without_trim. Qed.

Lemma determine_read_segments_widths_witness :
  let trimmed_rlen := 76 - 0 - 0 in
  exists segs,
    determine_read_segments 76 25 false 0 0 = Return segs
    /\ widths segs
       = repeat 25 (Z.to_nat (trimmed_rlen / 25 - 1))
           ++ [25 + trimmed_rlen mod 25]
    /\ 25 + trimmed_rlen mod 25 < 2 * 25.
Proof.
  apply (determine_read_segments_widths 76 25 0 0); lia.
Defined.

(** In trim mode, when at least two segments fit, the planner lays
    num_segments - 1 full windows from trim5 and adds a last window, ending
    at segment_length * num_segments, only when trim5 < segment_length;
    that window is segment_length - trim5 wide.  With trim5 = 0 all
    num_segments windows are full; with trim5 >= segment_length the last
    segment that fits is not returned. *)
Theorem determine_read_segments_trim_mode
  (read_length segment_length trim5 trim3 : Z) :
  0 < segment_length ->
  2 <= (read_length - trim5 - trim3) / segment_length ->
  let num_segments := (read_length - trim5 - trim3) / segment_length in
  let full := grid (Z.to_nat (num_segments - 1)) segment_length trim5 in
  determine_read_segments read_length segment_length true trim5 trim3
  = Return (if trim5 <? segment_length
            then full ++ [(trim5 + (num_segments - 1) * segment_length,
                           segment_length * num_segments)]
            else full)
  /\ widths full = repeat segment_length (Z.to_nat (num_segments - 1))
  /\ segment_length * num_segments
     - (trim5 + (num_segments - 1) * segment_length)
     = segment_length - trim5.
Proof.
  intros Hpos Hnum num_segments full. split; [|split].
  - rewrite determine_read_segments_grid by lia. fold num_segments.
    set (n := Z.to_nat (num_segments - 1 - 1)).
    assert (Hn : Z.of_nat n = num_segments - 2) by lia.
    unfold read_end_of. fold num_segments.
    subst full. replace (Z.to_nat (num_segments - 1)) with (S n) by lia.
    replace (trim5 + segment_length + Z.of_nat n * segment_length)
      with (trim5 + (num_segments - 1) * segment_length) by lia.
    destruct (Z.ltb_spec trim5 segment_length) as [Hlt|Hge].
    + replace (trim5 + (num_segments - 1) * segment_length
               <? segment_length * num_segments) with true
        by (symmetry; apply Z.ltb_lt; lia).
      reflexivity.
    + replace (trim5 + (num_segments - 1) * segment_length
               <? segment_length * num_segments) with false
        by (symmetry; apply Z.ltb_ge; lia).
      reflexivity.
  - apply widths_grid.
  - lia.
Qed.

Lemma determine_read_segments_trim_mode_witness :
  let num_segments := (100 - 30 - 0) / 25 in
  let full := grid (Z.to_nat (num_segments - 1)) 25 30 in
  determine_read_segments 100 25 true 30 0
  = Return (if 30 <? 25
            then full ++ [(30 + (num_segments - 1) * 25, 25 * num_segments)]
            else full)
  /\ widths full = repeat 25 (Z.to_nat (num_segments - 1))
  /\ 25 * num_segments - (30 + (num_segments - 1) * 25) = 25 - 30.
Proof.
  apply (determine_read_segments_trim_mode 100 25 30 0);
    [lia | discriminate].
Defined.

(** ** What validation establishes *)

Lemma probe_read_lengths_returns
  (w : world) (fastq_files : list string) :
  forall mate read_lengths probed,
    probe_read_lengths w mate fastq_files read_lengths = Return probed ->
    Forall (fun f => isfile w f = true) fastq_files
    /\ probed = read_lengths ++ map (get_read_length w) fastq_files.
Proof.
  induction fastq_files as [|f rest IH]; intros mate read_lengths probed;
    cbn [probe_read_lengths map].
  - intros [= <-]. split; [constructor | now rewrite app_nil_r].
  - destruct (isfile w f) eqn:Hf; [|discriminate].
    intros Hrun. apply IH in Hrun. destruct Hrun as [Hrest ->].
    split; [now constructor | now rewrite <- app_assoc].
Qed.

Lemma probe_read_lengths_raises
  (w : world) (fastq_files : list string) :
  forall mate read_lengths e,
    probe_read_lengths w mate fastq_files read_lengths = Raise e ->
    exists position f,
      e = AlignError (not_valid_message position f)
      /\ nth_error fastq_files (position - mate) = Some f
      /\ (mate <= position)%nat
      /\ isfile w f = false.
Proof.
  induction fastq_files as [|f rest IH]; intros mate read_lengths e;
    cbn [probe_read_lengths]; [discriminate|].
  destruct (isfile w f) eqn:Hf.
  - intros Hrun. apply IH in Hrun.
    destruct Hrun as (position & g & -> & Hnth & Hle & Hg).
    exists position, g. repeat split; trivial; [|lia].
    replace (position - mate)%nat with (S (position - S mate)) by lia.
    exact Hnth.
  - intros [= <-]. exists mate, f. rewrite Nat.sub_diag. now repeat split.
Qed.

Lemma len_set_single (items : list Z) (a b : Z) :
  (len_set items <= 1)%nat -> In a items -> In b items -> a = b.
Proof.
  intros Hset Ha Hb. destruct (Z.eq_dec a b) as [|Hab]; [assumption|].
  pose proof (len_set_unequal items a b Ha Hb Hab). lia.
Qed.

Lemma check_fastq_files_returns_int
  (cfg : config) (w : world) (fastq_files : list string)
  (segment_length trim5 trim3 rlen : Z) :
  check_fastq_files cfg w fastq_files segment_length trim5 trim3
  = Return (Int rlen) ->
  fastq_files <> []
  /\ Forall (fun f => isfile w f = true) fastq_files
  /\ Forall (fun f => get_read_length w f = rlen) fastq_files
  /\ MIN_SEGMENT_LENGTH cfg <= segment_length <= rlen - trim5 - trim3.
Proof.
  unfold check_fastq_files.
  destruct (probe_read_lengths w 0 fastq_files []) as [probed|e] eqn:Hprobe;
    [|discriminate].
  apply probe_read_lengths_returns in Hprobe. cbn [app] in Hprobe.
  destruct Hprobe as [Hfiles ->].
  destruct (Nat.ltb_spec 1 (len_set (map (get_read_length w) fastq_files)))
    as [|Hset]; [discriminate|].
  destruct fastq_files as [|f rest]; cbn [map first]; [discriminate|].
  destruct (Z.ltb_spec segment_length (MIN_SEGMENT_LENGTH cfg)) as [|Hmin];
    [discriminate|].
  destruct (segment_length >? get_read_length w f - trim5 - trim3) eqn:Hmax;
    [discriminate|].
  intros [= <-]. repeat split; trivial; try discriminate.
  - apply Forall_forall. intros g Hg.
    apply (len_set_single _ _ _ Hset).
    + apply (in_map (get_read_length w)) in Hg. exact Hg.
    + now left.
  - pose proof (Zgt_cases segment_length (get_read_length w f - trim5 - trim3))
      as Hcase.
    rewrite Hmax in Hcase. exact Hcase.
Qed.

(** Whenever check_fastq_files returns an integer, the list of files is
    not empty, every file exists, every file has that integer as its
    probed read length, and MIN_SEGMENT_LENGTH <= segment_length <=
    read length - trim5 - trim3. *)
Theorem check_fastq_files_sound
  (cfg : config) (w : world) (fastq_files : list string)
  (segment_length trim5 trim3 rlen : Z) :
  check_fastq_files cfg w fastq_files segment_length trim5 trim3
  = Return (Int rlen) ->
  fastq_files <> []
  /\ Forall (fun f => isfile w f = true) fastq_files
  /\ Forall (fun f => get_read_length w f = rlen) fastq_files
  /\ MIN_SEGMENT_LENGTH cfg <= segment_length <= rlen - trim5 - trim3.
Proof. apply check_fastq_files_returns_int. Qed.

Lemma check_fastq_files_sound_witness :
  ["mate1.fq"; "mate2.fq"]%string <> []
  /\ Forall (fun f => isfile aligner_fails f = true)
       ["mate1.fq"; "mate2.fq"]%string
  /\ Forall (fun f => get_read_length aligner_fails f = 76)
       ["mate1.fq"; "mate2.fq"]%string
  /\ MIN_SEGMENT_LENGTH sample_config <= 25 <= 76 - 0 - 0.
Proof.
  apply (check_fastq_files_sound sample_config aligner_fails
           ["mate1.fq"; "mate2.fq"]%string 25 0 0 76).
  reflexivity.
Defined.

(** check_fastq_files has four kinds of outcome and no other: it returns
    an integer or False (never True); it raises IndexError, exactly when
    the list of files is empty; or it raises an AlignError whose text is
    the not-valid text of a listed path that is not a file, the too-small
    text or the too-long text. *)
Theorem check_fastq_files_outcomes
  (cfg : config) (w : world) (fastq_files : list string)
  (segment_length trim5 trim3 : Z) :
  (forall v,
      check_fastq_files cfg w fastq_files segment_length trim5 trim3
      = Return v ->
      v = Bool false \/ exists rlen, v = Int rlen)
  /\ (check_fastq_files cfg w fastq_files segment_length trim5 trim3
      = Raise IndexError <-> fastq_files = [])
  /\ (forall e,
         check_fastq_files cfg w fastq_files segment_length trim5 trim3
         = Raise e ->
         e = IndexError
         \/ (exists position f,
                e = AlignError (not_valid_message position f)
                /\ nth_error fastq_files position = Some f
                /\ isfile w f = false)
         \/ e = AlignError
                  (too_small_message segment_length (MIN_SEGMENT_LENGTH cfg))
         \/ exists trimmed_rlen,
             e = AlignError (too_long_message segment_length trimmed_rlen)).
Proof.
  unfold check_fastq_files.
  destruct (probe_read_lengths w 0 fastq_files []) as [probed|e] eqn:Hprobe.
  - apply probe_read_lengths_returns in Hprobe. cbn [app] in Hprobe.
    destruct Hprobe as [_ ->].
    destruct fastq_files as [|f rest]; cbn [map first len_set nodup length].
    + cbn. repeat split; try discriminate; trivial.
      intros e [= <-]. now left.
    + destruct (1 <? _)%nat;
        [|destruct (segment_length <? _);
          [|destruct (segment_length >? _)]].
      all: repeat split; try discriminate.
      all: try (intros v [= <-]; eauto).
      all: intros e [= <-]; eauto 6.
  - apply probe_read_lengths_raises in Hprobe.
    destruct Hprobe as (position & f & -> & Hnth & _ & Hf).
    rewrite Nat.sub_0_r in Hnth.
    repeat split; try discriminate.
    + intros ->. destruct position; discriminate Hnth.
    + intros e [= <-]. right. left. eauto.
Qed.

(** ** Failures and resources of the pipeline *)

(** All runs of [align_segments] from the empty trace, the lists of
    segments and of files being already taken apart. *)
Ltac run_pipeline :=
  unfold align_segments, bind, popen, open, lift, emit, wait, ret, raise;
  cbv zeta;
  cbn [isfile get_read_length sys_executable script_path can_open can_spawn
       returncode first map max_of];
  match goal with
  | |- context [match ?lf with Some _ => _ | None => _ end] =>
      is_var lf; destruct lf
  | _ => idtac
  end;
  repeat (step_io; cbn [app]).

(** align_segments returns exactly when the merge stage has been started.
    When it raises, no stage has been waited for, and the exception is
    OSError (a command could not be started), ValueError with an empty
    list of segments, IOError with a log file, or IndexError with an empty
    list of fastq files. *)
Theorem align_segments_failures
  (w : world) (fastq_files : list string) (output_bam_file : string)
  (segments : list segment) (fastq_format : string)
  (multihits mismatches num_threads : Z)
  (bowtie_bin bowtie_index bowtie_mode : string)
  (best_strata : bool) (log_file : option string)
  (o : outcome unit) (t : list event) :
  align_segments w fastq_files output_bam_file segments fastq_format
    multihits mismatches num_threads bowtie_bin bowtie_index bowtie_mode
    best_strata log_file [] = (o, t) ->
  (o = Return tt <-> started Merger t = true)
  /\ forall e,
      o = Raise e ->
      waits t = []
      /\ (e = OSError
          \/ (e = ValueError /\ segments = [])
          \/ (e = IOError /\ log_file <> None)
          \/ (e = IndexError /\ fastq_files = [])).
Proof.
  destruct fastq_files as [|fastq_file0 rest];
    destruct segments as [|s segments]; run_pipeline.
  all: intros H; injection H as <- <-; cbn; split.
  all: try (split; [discriminate | discriminate]).
  all: try (split; reflexivity).
  all: try (intros e He; discriminate He).
  all: intros e [= <-]; split; [reflexivity|]; intuition discriminate.
Qed.

Lemma align_segments_failures_witness :
  (fst single_end_run = Return tt <-> started Merger (snd single_end_run) = true)
  /\ forall e,
      fst single_end_run = Raise e ->
      waits (snd single_end_run) = []
      /\ (e = OSError
          \/ (e = ValueError /\ [(0, 25); (25, 50); (50, 76)] = [])
          \/ (e = IOError /\ @None string <> None)
          \/ (e = IndexError /\ ["reads.fq"%string] = [])).
Proof.
  apply (align_segments_failures aligner_fails ["reads.fq"%string]
           "out.bam" [(0, 25); (25, 50); (50, 76)] "phred33-quals" 40 2 2
           "bowtie" "hg19" "-n" false None
           (fst single_end_run) (snd single_end_run)).
  reflexivity.
Defined.

(** In every run of align_segments the stages are started in the order
    segmenter, aligner, merger, each at most once and none before the
    previous one: the segmenter reads no pipe and writes to one, the
    aligner reads the segmenter's output, writes to a pipe and sends its
    diagnostics to the log file (if any), the merger reads the aligner's
    output and writes to no pipe. *)
Theorem align_segments_wiring
  (w : world) (fastq_files : list string) (output_bam_file : string)
  (segments : list segment) (fastq_format : string)
  (multihits mismatches num_threads : Z)
  (bowtie_bin bowtie_index bowtie_mode : string)
  (best_strata : bool) (log_file : option string)
  (o : outcome unit) (t : list event) :
  align_segments w fastq_files output_bam_file segments fastq_format
    multihits mismatches num_threads bowtie_bin bowtie_index bowtie_mode
    best_strata log_file [] = (o, t) ->
  exists n,
    wiring t
    = firstn n [(Segmenter, None, true, None);
                (Aligner, Some Segmenter, true, log_file);
                (Merger, Some Aligner, false, None)]
    /\ (o = Return tt -> n = 3%nat).
Proof.
  destruct fastq_files as [|fastq_file0 rest]; run_align_segments.
  all: intros H; injection H as <- <-; cbn.
  all: first [ exists 3%nat; split; [reflexivity | intros _; reflexivity]
             | exists 2%nat; split; [reflexivity | discriminate]
             | exists 1%nat; split; [reflexivity | discriminate]
             | exists 0%nat; split; [reflexivity | discriminate] ].
Qed.

Lemma align_segments_wiring_witness :
  exists n,
    wiring (snd single_end_run)
    = firstn n [(Segmenter, None, true, None);
                (Aligner, Some Segmenter, true, None);
                (Merger, Some Aligner, false, None)]
    /\ (fst single_end_run = Return tt -> n = 3%nat).
Proof.
  apply (align_segments_wiring aligner_fails ["reads.fq"%string]
           "out.bam" [(0, 25); (25, 50); (50, 76)] "phred33-quals" 40 2 2
           "bowtie" "hg19" "-n" false None
           (fst single_end_run) (snd single_end_run)).
  reflexivity.
Defined.

(** The log file of align_segments.  Without a log file nothing is opened
    or closed.  With one, once the aligner is started the trace holds, in a
    row, the opening of the log file, the start of the aligner and the
    closing of the log file, before the merger is started and before any
    wait; nothing else is opened or closed.  When the log file is opened
    and the aligner cannot be started, the run ends with OSError and the
    file is not closed. *)
Theorem align_segments_log_file
  (w : world) (fastq_files : list string) (output_bam_file : string)
  (segments : list segment) (fastq_format : string)
  (multihits mismatches num_threads : Z)
  (bowtie_bin bowtie_index bowtie_mode : string)
  (best_strata : bool) (log_file : option string)
  (o : outcome unit) (t : list event) :
  align_segments w fastq_files output_bam_file segments fastq_format
    multihits mismatches num_threads bowtie_bin bowtie_index bowtie_mode
    best_strata log_file [] = (o, t) ->
  (log_file = None -> log_events t = [])
  /\ forall path,
      log_file = Some path ->
      (started Aligner t = true ->
       exists before args after,
         t = before
               ++ [Open path;
                   Popen Aligner args (Some Segmenter) true (Some path);
                   Close path]
               ++ after
         /\ log_events before = [] /\ log_events after = []
         /\ started Merger before = false /\ waits before = [])
      /\ (started Aligner t = false ->
          log_events t = []
          \/ (log_events t = [Open path] /\ o = Raise OSError)).
Proof.
  destruct fastq_files as [|fastq_file0 rest]; run_align_segments.
  all: intros H; injection H as <- <-; cbn; split;
    try discriminate; try reflexivity.
  all: intros path' [= <-]; split; intros Hs; try discriminate Hs.
  all: try (left; reflexivity).
  all: try (right; split; reflexivity).
  all: eexists [_], _, _; repeat split.
Qed.

Lemma align_segments_log_file_witness :
  (Some "bowtie.log"%string = None -> log_events (snd logged_pipeline_run) = [])
  /\ forall path,
      Some "bowtie.log"%string = Some path ->
      (started Aligner (snd logged_pipeline_run) = true ->
       exists before args after,
         snd logged_pipeline_run
         = before
             ++ [Open path;
                 Popen Aligner args (Some Segmenter) true (Some path);
                 Close path]
             ++ after
         /\ log_events before = [] /\ log_events after = []
         /\ started Merger before = false /\ waits before = [])
      /\ (started Aligner (snd logged_pipeline_run) = false ->
          log_events (snd logged_pipeline_run) = []
          \/ (log_events (snd logged_pipeline_run) = [Open path]
              /\ fst logged_pipeline_run = Raise OSError)).
Proof.
  apply (align_segments_log_file aligner_fails ["reads.fq"%string] "out.bam"
           [(0, 76)] "phred33-quals" 40 2 2 "bowtie" "hg19" "-n" false
           (Some "bowtie.log"%string)
           (fst logged_pipeline_run) (snd logged_pipeline_run)).
  reflexivity.
Defined.

(** ** The aligner's command line *)

Lemma fold_left_max_spec (items : list Z) :
  forall x,
    (fold_left Z.max items x = x \/ In (fold_left Z.max items x) items)
    /\ x <= fold_left Z.max items x
    /\ Forall (fun y => y <= fold_left Z.max items x) items.
Proof.
  induction items as [|y items IH]; intros x; cbn [fold_left In].
  - repeat split; [now left | lia | constructor].
  - destruct (IH (Z.max x y)) as (Hin & Hle & Hall). repeat split.
    + destruct Hin as [Heq|Hin]; [|now right; right].
      rewrite Heq. destruct (Z.max_spec x y) as [[_ ->]|[_ ->]];
        [right; now left | now left].
    + lia.
    + constructor; [lia | exact Hall].
Qed.

Lemma max_of_spec (items : list Z) (m : Z) :
  max_of items = Return m ->
  In m items /\ Forall (fun y => y <= m) items.
Proof.
  destruct items as [|x items]; cbn [max_of]; [discriminate|].
  intros [= <-]. destruct (fold_left_max_spec items x) as (Hin & Hle & Hall).
  split.
  - destruct Hin as [->|Hin]; [now left | now right].
  - now constructor.
Qed.

(** What the aligner's command line carries after its thirteen leading
    arguments. *)
Lemma aligner_command_tail
  (w : world) (fastq_files : list string) (output_bam_file : string)
  (segments : list segment) (fastq_format : string)
  (multihits mismatches num_threads : Z)
  (bowtie_bin bowtie_index bowtie_mode : string)
  (best_strata : bool) (log_file : option string)
  (o : outcome unit) (t : list event) (cmd : list string) :
  align_segments w fastq_files output_bam_file segments fastq_format
    multihits mismatches num_threads bowtie_bin bowtie_index bowtie_mode
    best_strata log_file [] = (o, t) ->
  In cmd (commands Aligner t) ->
  exists m,
    max_of (widths segments) = Return m
    /\ skipn 13 cmd
       = (if String.eqb bowtie_mode "-n" then ["-l"%string; str m] else [])
           ++ (if best_strata then ["--best"; "--strata"]%string else [])
           ++ [bowtie_index; "-"%string].
Proof.
  unfold align_segments, bind, popen, open, lift, emit, wait, ret, raise,
    widths.
  cbv zeta.
  destruct (max_of (map (fun s => snd s - fst s) segments)) as [m|e] eqn:Hmax.
  - destruct fastq_files as [|fastq_file0 rest]; cbn [first];
      destruct log_file; repeat (step_io; cbn [app]).
    all: intros H; injection H as <- <-; cbn; intros Hcmd;
      try contradiction.
    all: destruct Hcmd as [<-|[]]; exists m; split; [reflexivity|].
    all: destruct (String.eqb bowtie_mode "-n"), best_strata; reflexivity.
  - step_io; cbn [app]; intros H; injection H as <- <-; cbn;
      intros Hcmd; contradiction.
Qed.

(** In mode "-n" the aligner is given, as its fourteenth and fifteenth
    arguments, "-l" and the width of the widest segment; in any other mode
    no seed length is passed: the thirteen leading arguments are followed
    only by "--best" "--strata" (with best_strata) and by the index and
    "-". *)
Theorem align_segments_seed_length
  (w : world) (fastq_files : list string) (output_bam_file : string)
  (segments : list segment) (fastq_format : string)
  (multihits mismatches num_threads : Z)
  (bowtie_bin bowtie_index bowtie_mode : string)
  (best_strata : bool) (log_file : option string)
  (o : outcome unit) (t : list event) (cmd : list string) :
  align_segments w fastq_files output_bam_file segments fastq_format
    multihits mismatches num_threads bowtie_bin bowtie_index bowtie_mode
    best_strata log_file [] = (o, t) ->
  In cmd (commands Aligner t) ->
  (bowtie_mode = "-n"%string ->
   exists m,
     nth_error cmd 13 = Some "-l"%string
     /\ nth_error cmd 14 = Some (str m)
     /\ In m (widths segments)
     /\ Forall (fun width => width <= m) (widths segments))
  /\ (bowtie_mode <> "-n"%string ->
      skipn 13 cmd
      = (if best_strata then ["--best"; "--strata"]%string else [])
          ++ [bowtie_index; "-"%string]).
Proof.
  intros Hrun Hcmd.
  destruct (aligner_command_tail _ _ _ _ _ _ _ _ _ _ _ _ _ _ _ _ Hrun Hcmd)
    as (m & Hmax & Htail).
  apply max_of_spec in Hmax. destruct Hmax as [Hin Hall].
  split.
  - intros ->. cbn [String.eqb Ascii.eqb Bool.eqb] in Htail.
    exists m. repeat split; trivial.
    + rewrite <- (Nat.add_0_r 13), <- nth_error_skipn, Htail. reflexivity.
    + change 14%nat with (13 + 1)%nat.
      rewrite <- nth_error_skipn, Htail. reflexivity.
  - intros Hmode. apply String.eqb_neq in Hmode. now rewrite Hmode in Htail.
Qed.

Lemma align_segments_seed_length_witness :
  ("-n"%string = "-n"%string ->
   exists m,
     nth_error
       ["bowtie"; "-q"; "-S"; "-p"; "2"; "--tryhard"; "--phred33-quals";
        "-k"; "40"; "-m"; "40"; "-n"; "2"; "-l"; "26"; "hg19"; "-"]%string 13
     = Some "-l"%string
     /\ nth_error
          ["bowtie"; "-q"; "-S"; "-p"; "2"; "--tryhard"; "--phred33-quals";
           "-k"; "40"; "-m"; "40"; "-n"; "2"; "-l"; "26"; "hg19"; "-"]%string
          14
        = Some (str m)
     /\ In m (widths [(0, 25); (25, 50); (50, 76)])
     /\ Forall (fun width => width <= m)
          (widths [(0, 25); (25, 50); (50, 76)]))
  /\ ("-n"%string <> "-n"%string ->
      skipn 13
        ["bowtie"; "-q"; "-S"; "-p"; "2"; "--tryhard"; "--phred33-quals";
         "-k"; "40"; "-m"; "40"; "-n"; "2"; "-l"; "26"; "hg19"; "-"]%string
      = (if false then ["--best"; "--strata"]%string else [])
          ++ ["hg19"; "-"]%string).
Proof.
  apply (align_segments_seed_length aligner_fails ["reads.fq"%string]
           "out.bam" [(0, 25); (25, 50); (50, 76)] "phred33-quals" 40 2 2
           "bowtie" "hg19" "-n" false None
           (fst single_end_run) (snd single_end_run)).
  - reflexivity.
  - cbn. left. reflexivity.
Defined.

(** ** The driver *)

Lemma check_fastq_files_raises
  (cfg : config) (w : world) (fastq_files : list string)
  (segment_length trim5 trim3 : Z) (e : exn) :
  check_fastq_files cfg w fastq_files segment_length trim5 trim3 = Raise e ->
  (e = IndexError /\ fastq_files = []) \/ exists text, e = AlignError text.
Proof.
  unfold check_fastq_files.
  destruct (probe_read_lengths w 0 fastq_files []) as [probed|e'] eqn:Hprobe.
  - apply probe_read_lengths_returns in Hprobe. cbn [app] in Hprobe.
    destruct Hprobe as [_ ->].
    destruct fastq_files as [|f rest]; cbn [map first len_set nodup length].
    + cbn. intros [= <-]. now left.
    + destruct (1 <? _)%nat; [discriminate|].
      destruct (segment_length <? _); [intros [= <-]; eauto|].
      destruct (segment_length >? _); [intros [= <-]; eauto|discriminate].
  - apply probe_read_lengths_raises in Hprobe.
    destruct Hprobe as (position & f & -> & _). intros [= <-]. eauto.
Qed.

(** The run of [align] is the run of [align_segments] on what validation
    and the planner return. *)
Lemma align_after_validation
  (cfg : config) (w : world)
  (fastq_files : list string) (fastq_format bowtie_index output_bam_file : string)
  (bowtie_bin : string) (num_processors segment_length : Z)
  (segment_trim : bool) (trim5 trim3 multihits mismatches : Z)
  (bowtie_mode : string) (best_strata : bool) (log_file : option string)
  (read_length : value) (segments : list segment)
  (o : outcome unit) (t : list event) :
  check_fastq_files cfg w fastq_files segment_length trim5 trim3
  = Return read_length ->
  determine_read_segments (int_of read_length) segment_length segment_trim
    trim5 trim3 = Return segments ->
  align_segments w fastq_files output_bam_file segments fastq_format
    multihits mismatches num_processors bowtie_bin bowtie_index bowtie_mode
    best_strata log_file [] = (o, t) ->
  align cfg w fastq_files fastq_format bowtie_index output_bam_file bowtie_bin
    num_processors segment_length segment_trim trim5 trim3 multihits
    mismatches bowtie_mode best_strata log_file []
  = (match o with
     | Return _ => Return (JOB_SUCCESS cfg)
     | Raise e => Raise e
     end, t).
Proof.
  intros Hcheck Hplan Hrun. unfold align.
  unfold bind at 1, lift at 1. rewrite Hcheck.
  unfold bind at 1, lift at 1. rewrite Hplan.
  unfold bind at 1. rewrite Hrun. now destruct o.
Qed.

(** The outcomes of align.  When validation raises, align raises the same
    exception and nothing has been started.  align never raises
    ValueError; it raises ZeroDivisionError only with segment_length = 0,
    and IndexError exactly with an empty list of fastq files, in both
    cases before anything is started; and the only value it returns is
    JOB_SUCCESS. *)
Theorem align_outcomes
  (cfg : config) (w : world)
  (fastq_files : list string) (fastq_format bowtie_index output_bam_file : string)
  (bowtie_bin : string) (num_processors segment_length : Z)
  (segment_trim : bool) (trim5 trim3 multihits mismatches : Z)
  (bowtie_mode : string) (best_strata : bool) (log_file : option string)
  (o : outcome Z) (t : list event) :
  align cfg w fastq_files fastq_format bowtie_index output_bam_file bowtie_bin
    num_processors segment_length segment_trim trim5 trim3 multihits
    mismatches bowtie_mode best_strata log_file [] = (o, t) ->
  (forall e,
      check_fastq_files cfg w fastq_files segment_length trim5 trim3
      = Raise e ->
      o = Raise e /\ t = [])
  /\ o <> Raise ValueError
  /\ (o = Raise ZeroDivisionError -> segment_length = 0 /\ t = [])
  /\ (o = Raise IndexError <-> fastq_files = [])
  /\ (o = Raise IndexError -> t = [])
  /\ (forall retcode, o = Return retcode -> retcode = JOB_SUCCESS cfg).
Proof.
  destruct (check_fastq_files cfg w fastq_files segment_length trim5 trim3)
    as [read_length|e] eqn:Hcheck.
  - assert (Hfiles : fastq_files <> []).
    { intros ->. discriminate Hcheck. }
    destruct (Z.eq_dec segment_length 0) as [->|Hsl].
    + unfold align, bind, lift. rewrite Hcheck. cbn.
      intros [= <- <-]. repeat split; try discriminate; trivial.
      intros ->. contradiction.
    + destruct (determine_read_segments_nonempty (int_of read_length)
                  segment_length segment_trim trim5 trim3 Hsl)
        as (stop & segments & Hplan).
      destruct (align_segments w fastq_files output_bam_file
                  ((trim5, stop) :: segments) fastq_format multihits
                  mismatches num_processors bowtie_bin bowtie_index
                  bowtie_mode best_strata log_file []) as [o' t'] eqn:Hrun.
      rewrite (align_after_validation _ _ _ _ _ _ _ _ _ _ _ _ _ _ _ _ _
                 _ _ _ _ Hcheck Hplan Hrun).
      intros [= <- <-]. revert Hrun.
      destruct fastq_files as [|fastq_file0 rest]; [contradiction|].
      run_pipeline.
      all: intros H; injection H as <- <-.
      all: repeat split; try discriminate; trivial.
      all: intros retcode [= <-]; reflexivity.
  - unfold align, bind, lift. rewrite Hcheck. intros [= <- <-].
    pose proof (check_fastq_files_raises _ _ _ _ _ _ _ Hcheck) as Hkind.
    split; [intros e' [= <-]; now split|].
    destruct Hkind as [[-> ->]|[text ->]].
    + repeat split; try discriminate; trivial.
    + repeat split; try discriminate; trivial.
      intros ->. discriminate Hcheck.
Qed.

(** When every file exists, the read lengths agree, the segment length is
    in range and not 0, every command can be started and every file
    opened, align starts and awaits the three stages and returns
    JOB_SUCCESS; the log file, if any, is opened and closed once. *)
Theorem align_succeeds
  (cfg : config) (w : world)
  (fastq_files : list string) (fastq_format bowtie_index output_bam_file : string)
  (bowtie_bin : string) (num_processors segment_length : Z)
  (segment_trim : bool) (trim5 trim3 multihits mismatches : Z)
  (bowtie_mode : string) (best_strata : bool) (log_file : option string)
  (rlen : Z) :
  fastq_files <> [] ->
  Forall (fun f => isfile w f = true) fastq_files ->
  Forall (fun f => get_read_length w f = rlen) fastq_files ->
  segment_length <> 0 ->
  MIN_SEGMENT_LENGTH cfg <= segment_length <= rlen - trim5 - trim3 ->
  (forall args, can_spawn w args = true) ->
  (forall path, can_open w path = true) ->
  exists t,
    align cfg w fastq_files fastq_format bowtie_index output_bam_file
      bowtie_bin num_processors segment_length segment_trim trim5 trim3
      multihits mismatches bowtie_mode best_strata log_file []
    = (Return (JOB_SUCCESS cfg), t)
    /\ all_started t = true
    /\ waits t = [Wait Merger (returncode w Merger);
                  Wait Aligner (returncode w Aligner);
                  Wait Segmenter (returncode w Segmenter)]
    /\ log_events t
       = match log_file with
         | Some path => [Open path; Close path]
         | None => []
         end.
Proof.
  intros Hne Hfiles Hlen Hsl [Hmin Hmax] Hspawn Hopen.
  assert (Hcheck :
            check_fastq_files cfg w fastq_files segment_length trim5 trim3
            = Return (Int rlen)).
  { rewrite (check_fastq_files_common cfg w fastq_files segment_length
               trim5 trim3 rlen Hne Hfiles Hlen).
    apply Z.ltb_ge in Hmin. rewrite Hmin.
    destruct (segment_length >? rlen - trim5 - trim3) eqn:Hgt;
      [apply Z.gtb_gt in Hgt; lia | reflexivity]. }
  destruct (determine_read_segments_nonempty (int_of (Int rlen))
              segment_length segment_trim trim5 trim3 Hsl)
    as (stop & segments & Hplan).
  destruct fastq_files as [|fastq_file0 rest]; [contradiction|].
  assert (Hrun :
            exists t,
              align_segments w (fastq_file0 :: rest) output_bam_file
                ((trim5, stop) :: segments) fastq_format multihits
                mismatches num_processors bowtie_bin bowtie_index
                bowtie_mode best_strata log_file [] = (Return tt, t)
              /\ all_started t = true
              /\ waits t = [Wait Merger (returncode w Merger);
                            Wait Aligner (returncode w Aligner);
                            Wait Segmenter (returncode w Segmenter)]
              /\ log_events t
                 = match log_file with
                   | Some path => [Open path; Close path]
                   | None => []
                   end).
  { unfold align_segments, bind, popen, open, lift, emit, wait, ret, raise.
    cbv zeta. cbn [first map max_of].
    destruct log_file as [path|];
      repeat (rewrite Hspawn || rewrite Hopen || cbn [app]);
      eexists; repeat split. }
  destruct Hrun as (t & Hrun & Hstarted & Hwaits & Hlog).
  exists t. split; [|now repeat split].
  exact (align_after_validation _ _ _ _ _ _ _ _ _ _ _ _ _ _ _ _ _ _ _ _ _
           Hcheck Hplan Hrun).
Qed.

Lemma align_succeeds_witness :
  exists t,
    align sample_config aligner_fails ["mate1.fq"; "mate2.fq"]%string
      "phred33-quals" "hg19" "out.bam" "bowtie" 2 25 false 0 0 40 2 "-n"
      false (Some "bowtie.log"%string) []
    = (Return (JOB_SUCCESS sample_config), t)
    /\ all_started t = true
    /\ waits t = [Wait Merger (returncode aligner_fails Merger);
                  Wait Aligner (returncode aligner_fails Aligner);
                  Wait Segmenter (returncode aligner_fails Segmenter)]
    /\ log_events t
       = match Some "bowtie.log"%string with
         | Some path => [Open path; Close path]
         | None => []
         end.
Proof.
  apply (align_succeeds sample_config aligner_fails
           ["mate1.fq"; "mate2.fq"]%string "phred33-quals" "hg19" "out.bam"
           "bowtie" 2 25 false 0 0 40 2 "-n" false
           (Some "bowtie.log"%string) 76).
  - discriminate.
  - repeat constructor.
  - repeat constructor.
  - discriminate.
  - cbn. lia.
  - reflexivity.
  - reflexivity.
Defined.

Lemma align_outcomes_witness :
  (forall e,
      check_fastq_files sample_config aligner_fails ["reads.fq"%string]
        25 0 0 = Raise e ->
      fst logged_run = Raise e /\ snd logged_run = [])
  /\ fst logged_run <> Raise ValueError
  /\ (fst logged_run = Raise ZeroDivisionError ->
      25 = 0 /\ snd logged_run = [])
  /\ (fst logged_run = Raise IndexError <-> ["reads.fq"%string] = [])
  /\ (fst logged_run = Raise IndexError -> snd logged_run = [])
  /\ (forall retcode,
         fst logged_run = Return retcode ->
         retcode = JOB_SUCCESS sample_config).
Proof.
  apply (align_outcomes sample_config aligner_fails ["reads.fq"%string]
           "phred33-quals" "hg19" "out.bam" "bowtie" 2 25 false 0 0 40 2
           "-v" true (Some "bowtie.log"%string)
           (fst logged_run) (snd logged_run)).
  reflexivity.
Defined.

(** The widest of [k] windows of width [a] followed by one of width
    [a + r], [r] not negative, is the last one. *)
Lemma max_of_widths_last (a r m : Z) (k : nat) :
  0 <= r ->
  max_of (repeat a k ++ [a + r]) = Return m ->
  m = a + r.
Proof.
  intros Hr Hmax. apply max_of_spec in Hmax. destruct Hmax as [Hin Hall].
  rewrite Forall_forall in Hall.
  assert (a + r <= m) by (apply Hall, in_or_app; right; now left).
  apply in_app_or in Hin. destruct Hin as [Hin|[<-|[]]]; [|reflexivity].
  apply repeat_spec in Hin. lia.
Qed.

(** In a run of align on files that exist and agree on the read length
    rlen, with a positive segment length in the valid range, without
    trimming to a multiple and in mode "-n", the aligner is started with
    "-l" followed by segment_length + ((rlen - trim5 - trim3) mod
    segment_length): the seed length is the width of the last segment. *)
Theorem align_seed_length
  (cfg : config) (w : world)
  (fastq_files : list string) (fastq_format bowtie_index output_bam_file : string)
  (bowtie_bin : string) (num_processors segment_length : Z)
  (trim5 trim3 multihits mismatches : Z)
  (best_strata : bool) (log_file : option string)
  (rlen : Z) (o : outcome Z) (t : list event) (cmd : list string) :
  fastq_files <> [] ->
  Forall (fun f => isfile w f = true) fastq_files ->
  Forall (fun f => get_read_length w f = rlen) fastq_files ->
  0 < segment_length ->
  MIN_SEGMENT_LENGTH cfg <= segment_length <= rlen - trim5 - trim3 ->
  align cfg w fastq_files fastq_format bowtie_index output_bam_file
    bowtie_bin num_processors segment_length false trim5 trim3
    multihits mismatches "-n" best_strata log_file [] = (o, t) ->
  In cmd (commands Aligner t) ->
  nth_error cmd 13 = Some "-l"%string
  /\ nth_error cmd 14
     = Some (str (segment_length
                  + (rlen - trim5 - trim3) mod segment_length)).
Proof.
  intros Hne Hfiles Hlen Hpos [Hmin Hmax] Hrun Hcmd.
  assert (Hcheck :
            check_fastq_files cfg w fastq_files segment_length trim5 trim3
            = Return (Int rlen)).
  { rewrite (check_fastq_files_common cfg w fastq_files segment_length
               trim5 trim3 rlen Hne Hfiles Hlen).
    apply Z.ltb_ge in Hmin. rewrite Hmin.
    destruct (segment_length >? rlen - trim5 - trim3) eqn:Hgt;
      [apply Z.gtb_gt in Hgt; lia | reflexivity]. }
  destruct (widths_without_trim rlen segment_length trim5 trim3 Hpos Hmax)
    as (segments & Hplan & Hwidths & _).
  destruct (align_segments w fastq_files output_bam_file segments
              fastq_format multihits mismatches num_processors bowtie_bin
              bowtie_index "-n" best_strata log_file []) as [o' t']
    eqn:Hpipe.
  rewrite (align_after_validation cfg w fastq_files fastq_format
             bowtie_index output_bam_file bowtie_bin num_processors
             segment_length false trim5 trim3 multihits mismatches "-n"
             best_strata log_file (Int rlen) segments o' t'
             Hcheck Hplan Hpipe) in Hrun.
  injection Hrun as _ <-.
  destruct (aligner_command_tail _ _ _ _ _ _ _ _ _ _ _ _ _ _ _ _ Hpipe Hcmd)
    as (m & Hm & Htail).
  rewrite Hwidths in Hm. apply max_of_widths_last in Hm.
  - subst m. cbn [String.eqb Ascii.eqb Bool.eqb] in Htail. split.
    + rewrite <- (Nat.add_0_r 13), <- nth_error_skipn, Htail. reflexivity.
    + change 14%nat with (13 + 1)%nat.
      rewrite <- nth_error_skipn, Htail. reflexivity.
  - apply Z.mod_pos_bound. exact Hpos.
Qed.

Lemma align_seed_length_witness :
  nth_error
    ["bowtie"; "-q"; "-S"; "-p"; "2"; "--tryhard"; "--phred33-quals";
     "-k"; "40"; "-m"; "40"; "-n"; "2"; "-l"; "26"; "hg19"; "-"]%string 13
  = Some "-l"%string
  /\ nth_error
       ["bowtie"; "-q"; "-S"; "-p"; "2"; "--tryhard"; "--phred33-quals";
        "-k"; "40"; "-m"; "40"; "-n"; "2"; "-l"; "26"; "hg19"; "-"]%string 14
     = Some (str (25 + (76 - 0 - 0) mod 25)).
Proof.
  apply (align_seed_length sample_config aligner_fails ["reads.fq"%string]
           "phred33-quals" "hg19" "out.bam" "bowtie" 2 25 0 0 40 2 false
           None 76
           (fst (align sample_config aligner_fails ["reads.fq"%string]
                   "phred33-quals" "hg19" "out.bam" "bowtie" 2 25 false 0 0
                   40 2 "-n" false None []))
           (snd (align sample_config aligner_fails ["reads.fq"%string]
                   "phred33-quals" "hg19" "out.bam" "bowtie" 2 25 false 0 0
                   40 2 "-n" false None []))).
  - discriminate.
  - repeat constructor.
  - repeat constructor.
  - lia.
  - cbn. lia.
  - reflexivity.
  - cbn. left. reflexivity.
Defined.

(** ** The command-line entry point *)

(** A run of [align] either stops before anything is started, or is a
    run of [align_segments]. *)
Lemma align_inversion
  (cfg : config) (w : world)
  (fastq_files : list string) (fastq_format bowtie_index output_bam_file : string)
  (bowtie_bin : string) (num_processors segment_length : Z)
  (segment_trim : bool) (trim5 trim3 multihits mismatches : Z)
  (bowtie_mode : string) (best_strata : bool) (log_file : option string)
  (o : outcome Z) (t : list event) :
  align cfg w fastq_files fastq_format bowtie_index output_bam_file bowtie_bin
    num_processors segment_length segment_trim trim5 trim3 multihits
    mismatches bowtie_mode best_strata log_file [] = (o, t) ->
  (t = [] /\ exists e, o = Raise e)
  \/ exists segments o',
      align_segments w fastq_files output_bam_file segments fastq_format
        multihits mismatches num_processors bowtie_bin bowtie_index
        bowtie_mode best_strata log_file [] = (o', t)
      /\ o = match o' with
             | Return _ => Return (JOB_SUCCESS cfg)
             | Raise e => Raise e
             end.
Proof.
  unfold align. unfold bind at 1, lift at 1.
  destruct (check_fastq_files cfg w fastq_files segment_length trim5 trim3)
    as [read_length|e]; [|intros [= <- <-]; left; eauto].
  unfold bind at 1, lift at 1.
  destruct (determine_read_segments (int_of read_length) segment_length
              segment_trim trim5 trim3) as [segments|e];
    [|intros [= <- <-]; left; eauto].
  unfold bind at 1.
  destruct (align_segments w fastq_files output_bam_file segments
              fastq_format multihits mismatches num_processors bowtie_bin
              bowtie_index bowtie_mode best_strata log_file [])
    as [[[]|e] t'] eqn:Hrun; intros [= <- <-]; right; eauto.
Qed.

(** What a run of [align_segments] without log file shows of its
    arguments. *)
Lemma align_segments_facts
  (w : world) (fastq_files : list string) (output_bam_file : string)
  (segments : list segment) (fastq_format : string)
  (multihits mismatches num_threads : Z)
  (bowtie_bin bowtie_index bowtie_mode : string)
  (best_strata : bool) (o : outcome unit) (t : list event) :
  align_segments w fastq_files output_bam_file segments fastq_format
    multihits mismatches num_threads bowtie_bin bowtie_index bowtie_mode
    best_strata None [] = (o, t) ->
  log_events t = []
  /\ no_stderr t
  /\ (o = Return tt -> all_started t = true /\ fastq_files <> [])
  /\ (forall cmd, In cmd (commands Segmenter t) -> skipn 4 cmd = fastq_files)
  /\ (forall cmd, In cmd (commands Aligner t) ->
      nth_error cmd 11 = Some bowtie_mode)
  /\ (forall cmd, In cmd (commands Merger t) ->
      (nth_error cmd 2 = Some "--sr"%string <-> length fastq_files = 1%nat)).
Proof.
  unfold no_stderr.
  destruct fastq_files as [|fastq_file0 [|fastq_file1 rest]];
    run_align_segments.
  all: intros H; injection H as <- <-; cbn.
  all: repeat split; try discriminate; try reflexivity;
    try (repeat constructor).
  all: try (intros cmd Hcmd; try contradiction;
            destruct Hcmd as [<-|[]]; try reflexivity).
  all: try (split; [reflexivity | intros _; reflexivity]).
  all: try (split; intros H; discriminate H).
  all: try (intros H; discriminate H).
  all: try contradiction.
  all: try (destruct best_strata, (String.eqb bowtie_mode "-n");
            reflexivity).
  all: repeat match goal with
         | H : _ \/ False |- _ => destruct H as [<-|[]]
         end;
    cbn; try reflexivity; intros H; discriminate H.
Qed.

(** [align_until_join] is the beginning of [align]: it raises what
    [align] raises up to there, and otherwise has started the segmenter
    only. *)
Lemma align_until_join_facts
  (cfg : config) (w : world) (fastq_files : list string)
  (segment_length : Z) (segment_trim : bool) (trim5 trim3 : Z)
  (o : outcome unit) (t : list event) :
  align_until_join cfg w fastq_files segment_length segment_trim trim5 trim3 []
  = (o, t) ->
  log_events t = []
  /\ no_stderr t
  /\ started Aligner t = false /\ started Merger t = false
  /\ commands Aligner t = [] /\ commands Merger t = []
  /\ (forall cmd, In cmd (commands Segmenter t) -> skipn 4 cmd = fastq_files)
  /\ (o = Return tt -> started Segmenter t = true /\ fastq_files <> [])
  /\ (forall e, o = Raise e ->
      forall fastq_format bowtie_index output_bam_file bowtie_bin
             num_processors multihits mismatches bowtie_mode best_strata
             log_file,
        align cfg w fastq_files fastq_format bowtie_index output_bam_file
          bowtie_bin num_processors segment_length segment_trim trim5 trim3
          multihits mismatches bowtie_mode best_strata log_file []
        = (Raise e, t)).
Proof.
  unfold no_stderr, align_until_join, align.
  unfold bind at 1 5, lift at 1 4.
  destruct (check_fastq_files cfg w fastq_files segment_length trim5 trim3)
    as [read_length|e] eqn:Hcheck.
  - assert (Hfiles : fastq_files <> [])
      by (intros ->; discriminate Hcheck).
    unfold bind at 1 4, lift at 1 3.
    destruct (determine_read_segments (int_of read_length) segment_length
                segment_trim trim5 trim3) as [segments|e].
    + unfold align_segments, bind, popen, lift, emit, ret, raise. cbv zeta.
      step_io; cbn [app].
      * destruct (max_of (map (fun s => snd s - fst s) segments));
          intros [= <- <-]; cbn; repeat split; trivial;
          try discriminate; try (repeat constructor).
        all: try (intros cmd [<-|[]]; reflexivity).
        intros e' [= <-]. reflexivity.
      * intros [= <- <-]; cbn; repeat split; trivial; try discriminate;
          try constructor; try contradiction.
        intros e' [= <-]. reflexivity.
    + intros [= <- <-]; cbn; repeat split; trivial; try discriminate;
        try constructor; try contradiction.
      intros e' [= <-]. reflexivity.
  - intros [= <- <-]; cbn; repeat split; trivial; try discriminate;
      try constructor; try contradiction.
    intros e' [= <-]. reflexivity.
Qed.

(** The runs of [main], one goal for each way it can go: [Hpipe] holds
    the run of [align_segments], [Hjoin] the run up to the join. *)
Ltac run_main :=
  unfold main;
  match goal with
  | |- context [first ?args] =>
      destruct args as [|output_bam_file fastq_files]; cbn [first tl length]
  end;
  [ intros [= <- <-]
  | match goal with
    | |- context [options.bowtie_index ?opts] =>
        destruct (options.bowtie_index opts) as [index|] eqn:Hindex
    end;
    [ match goal with
      | |- context [align ?cfg ?w ?ff ?fmt ?idx ?out ?bin ?np ?sl ?st ?t5
                          ?t3 ?mh ?mm ?mode ?bs ?lf []] =>
          destruct (align cfg w ff fmt idx out bin np sl st t5 t3 mh mm
                      mode bs lf []) as [[retcode|e] t'] eqn:Hrun;
          intros [= <- <-];
          destruct (align_inversion _ _ _ _ _ _ _ _ _ _ _ _ _ _ _ _ _ _ _
                      Hrun)
            as [[-> [e' He]]|(segments & o' & Hpipe & Ho)];
          try discriminate He;
          try (destruct o' as [[]|e'']; try discriminate Ho);
          try (pose proof (align_segments_facts _ _ _ _ _ _ _ _ _ _ _ _ _ _
                             Hpipe)
                as (Hlog & Herr & Hall & Hseg & Haln & Hmrg))
      end
    | match goal with
      | |- context [align_until_join ?cfg ?w ?ff ?sl ?st ?t5 ?t3 []] =>
          destruct (align_until_join cfg w ff sl st t5 t3 [])
            as [[[]|e] t'] eqn:Hjoin;
          intros [= <- <-];
          pose proof (align_until_join_facts _ _ _ _ _ _ _ _ _ Hjoin)
            as (Hlog & Herr & Haln & Hmrg & Hcaln & Hcmrg & Hseg & Hret
                & Hsame)
      end ] ].

(** With fewer than two positional arguments (no output file, or no
    fastq file) main ends with an uncaught IndexError before anything is
    started, whatever the options. *)
Theorem main_too_few_arguments
  (cfg : config) (w : world) (opts : options.t) (args : list string) :
  (length args < 2)%nat ->
  main cfg w opts args = (Uncaught IndexError, []).
Proof.
  intros Hargs. destruct args as [|output_bam_file [|f rest]];
    [reflexivity | | cbn in Hargs; lia].
  unfold main. cbn [first tl].
  destruct (options.bowtie_index opts); reflexivity.
Qed.

Lemma main_too_few_arguments_witness :
  main sample_config aligner_fails options.defaults ["out.bam"%string]
  = (Uncaught IndexError, []).
Proof.
  apply (main_too_few_arguments sample_config aligner_fails options.defaults
           ["out.bam"%string]).
  cbn. lia.
Defined.

(** main calls sys.exit only with JOB_SUCCESS, and only after the three
    stages were started, which takes an index and at least two positional
    arguments.  Without --bowtie-index it never reaches sys.exit: when
    nothing fails before, it ends with an uncaught TypeError once the
    segmenter is started, the aligner never being started. *)
Theorem main_exit_status
  (cfg : config) (w : world) (opts : options.t) (args : list string)
  (r : termination) (t : list event) :
  main cfg w opts args = (r, t) ->
  (forall retcode,
      r = Exit retcode ->
      retcode = JOB_SUCCESS cfg
      /\ all_started t = true
      /\ (2 <= length args)%nat
      /\ options.bowtie_index opts <> None)
  /\ (r = UncaughtTypeError ->
      options.bowtie_index opts = None
      /\ started Segmenter t = true
      /\ started Aligner t = false)
  /\ (options.bowtie_index opts = None ->
      (forall retcode, r <> Exit retcode) /\ started Aligner t = false).
Proof.
  run_main.
  all: repeat split; try discriminate; try reflexivity; trivial.
  all: try (intros retcode' [= <-]).
  all: try (injection Ho as ->).
  all: try (destruct (Hall eq_refl) as [Hstarted Hfiles]).
  all: repeat split; try discriminate; trivial.
  all: try (destruct fastq_files; [contradiction | cbn; lia]).
  all: try (destruct (Hret eq_refl) as [Hstarted _]; exact Hstarted).
  all: try (intros H; discriminate H).
  all: match goal with
       | H : Exit _ = Exit _ |- _ => injection H as <-; reflexivity
       end.
Qed.

Lemma main_exit_status_witness :
  (forall retcode,
      fst main_run = Exit retcode ->
      retcode = JOB_SUCCESS sample_config
      /\ all_started (snd main_run) = true
      /\ (2 <= length ["out.bam"; "reads.fq"]%string)%nat
      /\ options.bowtie_index sample_options <> None)
  /\ (fst main_run = UncaughtTypeError ->
      options.bowtie_index sample_options = None
      /\ started Segmenter (snd main_run) = true
      /\ started Aligner (snd main_run) = false)
  /\ (options.bowtie_index sample_options = None ->
      (forall retcode, fst main_run <> Exit retcode)
      /\ started Aligner (snd main_run) = false).
Proof.
  apply (main_exit_status sample_config aligner_fails sample_options
           ["out.bam"; "reads.fq"]%string (fst main_run) (snd main_run)).
  reflexivity.
Defined.

(** main passes no log file: in none of its runs is a file opened or
    closed, and no started stage has its diagnostics redirected. *)
Theorem main_no_log_file
  (cfg : config) (w : world) (opts : options.t) (args : list string)
  (r : termination) (t : list event) :
  main cfg w opts args = (r, t) ->
  log_events t = [] /\ no_stderr t.
Proof.
  run_main; split; trivial; constructor.
Qed.

Lemma main_no_log_file_witness :
  log_events (snd main_run) = [] /\ no_stderr (snd main_run).
Proof.
  apply (main_no_log_file sample_config aligner_fails sample_options
           ["out.bam"; "reads.fq"]%string (fst main_run) (snd main_run)).
  reflexivity.
Defined.

(** What main puts on the command lines: the segmenter is given, after
    its four leading arguments, the positional arguments that follow the
    output file; the aligner is given "-v" as its twelfth argument when
    --bowtie-mode-v is set and "-n" otherwise; the merger is given "--sr"
    right after its script exactly when there are two positional
    arguments, the output file and one fastq file. *)
Theorem main_commands
  (cfg : config) (w : world) (opts : options.t) (args : list string)
  (r : termination) (t : list event) :
  main cfg w opts args = (r, t) ->
  (forall cmd, In cmd (commands Segmenter t) -> skipn 4 cmd = tl args)
  /\ (forall cmd, In cmd (commands Aligner t) ->
      nth_error cmd 11
      = Some (if options.bowtie_mode_v opts then "-v" else "-n")%string)
  /\ (forall cmd, In cmd (commands Merger t) ->
      (nth_error cmd 2 = Some "--sr"%string <-> length args = 2%nat)).
Proof.
  run_main; cbn [tl length]; (split; [|split]); trivial;
    try (intros cmd []);
    try (rewrite ?Hcaln, ?Hcmrg; intros cmd []).
  all: intros cmd Hcmd; rewrite (Hmrg cmd Hcmd); split; intros H; lia.
Qed.

Lemma main_commands_witness :
  (forall cmd,
      In cmd (commands Segmenter (snd main_run)) ->
      skipn 4 cmd = tl ["out.bam"; "reads.fq"]%string)
  /\ (forall cmd,
         In cmd (commands Aligner (snd main_run)) ->
         nth_error cmd 11
         = Some (if options.bowtie_mode_v sample_options
                 then "-v" else "-n")%string)
  /\ (forall cmd,
         In cmd (commands Merger (snd main_run)) ->
         (nth_error cmd 2 = Some "--sr"%string
          <-> length ["out.bam"; "reads.fq"]%string = 2%nat)).
Proof.
  apply (main_commands sample_config aligner_fails sample_options
           ["out.bam"; "reads.fq"]%string (fst main_run) (snd main_run)).
  reflexivity.
Defined.

(** ** The boundaries on the segmenter's command line *)

Lemma to_int_not_nil (n : Z) :
  Z.to_int n <> Decimal.Pos Decimal.Nil
  /\ Z.to_int n <> Decimal.Neg Decimal.Nil.
Proof.
  destruct n as [|p|p]; cbn; split; try discriminate;
    intros [= E]; exact (Unsigned.to_uint_nonnil p E).
Qed.

Lemma str_inj (a b : Z) : str a = str b -> a = b.
Proof.
  unfold str. intros H. apply DecimalZ.to_int_inj.
  assert (Hsome : Some (Z.to_int a) = Some (Z.to_int b)).
  { rewrite <- (NilZero.isi (Z.to_int a)) by apply to_int_not_nil.
    rewrite <- (NilZero.isi (Z.to_int b)) by apply to_int_not_nil.
    now rewrite H. }
  now injection Hsome.
Qed.

Lemma string_of_uint_comma_free (d : Decimal.uint) :
  char_free "," (NilEmpty.string_of_uint d).
Proof.
  induction d; cbn [NilEmpty.string_of_uint char_free]; try split; trivial;
    discriminate.
Qed.

Lemma str_comma_free (n : Z) : char_free "," (str n).
Proof.
  unfold str, NilZero.string_of_int, NilZero.string_of_uint.
  destruct (Z.to_int n) as [d|d]; destruct d; cbn [char_free];
    repeat split; try discriminate; try apply string_of_uint_comma_free.
Qed.

Lemma str_not_empty (n : Z) : str n <> EmptyString.
Proof.
  unfold str, NilZero.string_of_int, NilZero.string_of_uint.
  destruct (Z.to_int n) as [d|d]; destruct d; discriminate.
Qed.

Lemma char_free_no_occurrence (c : ascii) (s1 : string) :
  forall s r, char_free c s -> s <> (s1 ++ String c r)%string.
Proof.
  induction s1 as [|d s1 IH]; intros [|e s] r Hfree Heq;
    cbn [String.append char_free] in *; try discriminate.
  - injection Heq as -> _. now destruct Hfree.
  - injection Heq as -> Heq. destruct Hfree as [_ Hfree].
    exact (IH _ _ Hfree Heq).
Qed.

Lemma append_char_split (c : ascii) (s1 : string) :
  forall s2 r1 r2,
    char_free c s1 -> char_free c s2 ->
    (s1 ++ String c r1 = s2 ++ String c r2)%string ->
    s1 = s2 /\ r1 = r2.
Proof.
  induction s1 as [|d s1 IH]; intros [|e s2] r1 r2 H1 H2 Heq;
    cbn [String.append char_free] in *.
  - injection Heq as ->. now split.
  - injection Heq as <- _. destruct H2 as [H2 _]. congruence.
  - injection Heq as -> _. destruct H1 as [H1 _]. congruence.
  - injection Heq as -> Heq. destruct H1 as [_ H1], H2 as [_ H2].
    destruct (IH _ _ _ H1 H2 Heq) as [-> ->]. now split.
Qed.

Lemma join_cons (x y : string) (rest : list string) :
  join "," (x :: y :: rest) = (x ++ String "," (join "," (y :: rest)))%string.
Proof. reflexivity. Qed.

Lemma join_str_inj (l1 : list Z) :
  forall l2,
    join "," (map str l1) = join "," (map str l2) -> l1 = l2.
Proof.
  induction l1 as [|x l1 IH]; intros [|y l2] Heq; trivial.
  - destruct l2 as [|z l2]; cbn [map] in Heq.
    + symmetry in Heq. now apply str_not_empty in Heq.
    + rewrite join_cons in Heq. change (join "," []) with EmptyString in Heq.
      destruct (str y); discriminate Heq.
  - destruct l1 as [|z l1]; cbn [map] in Heq.
    + now apply str_not_empty in Heq.
    + rewrite join_cons in Heq. change (join "," []) with EmptyString in Heq.
      destruct (str x); discriminate Heq.
  - destruct l1 as [|x' l1], l2 as [|y' l2]; cbn [map] in Heq.
    + f_equal. now apply str_inj.
    + rewrite join_cons in Heq. change (join "," [str x]) with (str x) in Heq.
      exfalso. exact (char_free_no_occurrence _ _ _ _ (str_comma_free x) Heq).
    + rewrite join_cons in Heq. change (join "," [str y]) with (str y) in Heq.
      exfalso. symmetry in Heq.
      exact (char_free_no_occurrence _ _ _ _ (str_comma_free y) Heq).
    + rewrite !join_cons in Heq.
      apply append_char_split in Heq; try apply str_comma_free.
      destruct Heq as [Hx Hrest]. apply str_inj in Hx. subst y.
      f_equal. apply IH. exact Hrest.
Qed.

Lemma split_pairs_inj (s1 : list segment) :
  forall s2,
    map fst s1 = map fst s2 -> map snd s1 = map snd s2 -> s1 = s2.
Proof.
  induction s1 as [|[a b] s1 IH]; intros [|[c d] s2] Hf Hs;
    cbn [map fst snd] in *; try discriminate; trivial.
  injection Hf as -> Hf. injection Hs as -> Hs. f_equal. now apply IH.
Qed.

(** Where the segmenter's command line holds the boundaries. *)
Lemma segmenter_command_boundaries
  (w : world) (fastq_files : list string) (output_bam_file : string)
  (segments : list segment) (fastq_format : string)
  (multihits mismatches num_threads : Z)
  (bowtie_bin bowtie_index bowtie_mode : string)
  (best_strata : bool) (log_file : option string)
  (o : outcome unit) (t : list event) (cmd : list string) :
  align_segments w fastq_files output_bam_file segments fastq_format
    multihits mismatches num_threads bowtie_bin bowtie_index bowtie_mode
    best_strata log_file [] = (o, t) ->
  In cmd (commands Segmenter t) ->
  nth_error cmd 2 = Some (join "," (map str (map fst segments)))
  /\ nth_error cmd 3 = Some (join "," (map str (map snd segments)))
  /\ skipn 4 cmd = fastq_files.
Proof.
  destruct fastq_files as [|fastq_file0 rest]; run_align_segments.
  all: intros H; injection H as <- <-; cbn; intros Hcmd;
    try contradiction.
  all: destruct Hcmd as [<-|[]]; repeat split.
Qed.

(** The segmenter's command line determines the list of boundaries: two
    runs of align_segments whose segmenter commands agree on their third
    and fourth arguments (the comma-separated starts and ends) were given
    the same segments. *)
Theorem segmenter_command_determines_segments
  (w w' : world) (fastq_files fastq_files' : list string)
  (output_bam_file output_bam_file' : string)
  (segments segments' : list segment) (fastq_format fastq_format' : string)
  (multihits mismatches num_threads multihits' mismatches' num_threads' : Z)
  (bowtie_bin bowtie_index bowtie_mode : string)
  (bowtie_bin' bowtie_index' bowtie_mode' : string)
  (best_strata best_strata' : bool) (log_file log_file' : option string)
  (o o' : outcome unit) (t t' : list event) (cmd cmd' : list string) :
  align_segments w fastq_files output_bam_file segments fastq_format
    multihits mismatches num_threads bowtie_bin bowtie_index bowtie_mode
    best_strata log_file [] = (o, t) ->
  align_segments w' fastq_files' output_bam_file' segments' fastq_format'
    multihits' mismatches' num_threads' bowtie_bin' bowtie_index'
    bowtie_mode' best_strata' log_file' [] = (o', t') ->
  In cmd (commands Segmenter t) ->
  In cmd' (commands Segmenter t') ->
  nth_error cmd 2 = nth_error cmd' 2 ->
  nth_error cmd 3 = nth_error cmd' 3 ->
  segments = segments'.
Proof.
  intros Hrun Hrun' Hcmd Hcmd' Hstarts Hends.
  destruct (segmenter_command_boundaries _ _ _ _ _ _ _ _ _ _ _ _ _ _ _ _
              Hrun Hcmd) as (Hs & He & _).
  destruct (segmenter_command_boundaries _ _ _ _ _ _ _ _ _ _ _ _ _ _ _ _
              Hrun' Hcmd') as (Hs' & He' & _).
  rewrite Hs, Hs' in Hstarts. rewrite He, He' in Hends.
  injection Hstarts as Hstarts. injection Hends as Hends.
  apply join_str_inj in Hstarts, Hends.
  now apply split_pairs_inj.
Qed.

Lemma segmenter_command_determines_segments_witness :
  [(0, 25); (25, 50); (50, 76)] = [(0, 25); (25, 50); (50, 76)].
Proof.
  apply (segmenter_command_determines_segments
           aligner_fails unequal_mates
           ["reads.fq"%string] ["mate1.fq"; "mate2.fq"]%string
           "out.bam" "pe.bam"
           [(0, 25); (25, 50); (50, 76)] [(0, 25); (25, 50); (50, 76)]
           "phred33-quals" "solexa-quals" 40 2 2 100 3 1
           "bowtie" "hg19" "-n" "bowtie" "mm9" "-v" false true None None
           (fst single_end_run) (fst paired_end_run)
           (snd single_end_run) (snd paired_end_run)
           ["python"; "chimerascan/deprecated/segment_reads.py"; "0,25,50";
            "25,50,76"; "reads.fq"]%string
           ["python"; "chimerascan/deprecated/segment_reads.py"; "0,25,50";
            "25,50,76"; "mate1.fq"; "mate2.fq"]%string).
  - reflexivity.
  - reflexivity.
  - cbn. left. reflexivity.
  - cbn. left. reflexivity.
  - reflexivity.
  - reflexivity.
Defined.

(** ** Trimming to a multiple, and what the segmenter is handed *)

(** With no 5' trim and a segment length in the valid range, segment_trim
    changes the planner's result exactly when the trimmed read is not a
    multiple of the segment length. *)
Theorem segment_trim_matters_iff_remainder
  (read_length segment_length trim3 : Z) :
  0 < segment_length ->
  segment_length <= read_length - 0 - trim3 ->
  (determine_read_segments read_length segment_length true 0 trim3
   = determine_read_segments read_length segment_length false 0 trim3
   <-> (read_length - 0 - trim3) mod segment_length = 0).
Proof.
  intros Hpos Hle.
  pose proof (num_segments_lower _ _ Hpos Hle) as Hnum.
  pose proof (Z.div_mod (read_length - 0 - trim3) segment_length) as Hdm.
  pose proof (Z.mod_pos_bound (read_length - 0 - trim3) segment_length Hpos)
    as Hmod.
  destruct (Z.eq_dec ((read_length - 0 - trim3) / segment_length) 1)
    as [Hone|Hmore].
  - unfold determine_read_segments.
    replace (segment_length =? 0) with false
      by (symmetry; apply Z.eqb_neq; lia).
    rewrite Hone. cbn [Z.eqb Pos.eqb]. split.
    + intros [= Heq]. lia.
    + intros Hrem. do 3 f_equal. lia.
  - rewrite !determine_read_segments_grid by lia.
    set (num_segments := (read_length - 0 - trim3) / segment_length) in *.
    set (n := Z.to_nat (num_segments - 1 - 1)).
    assert (Hn : Z.of_nat n = num_segments - 2) by lia.
    unfold read_end_of. fold num_segments.
    replace (0 + segment_length + Z.of_nat n * segment_length
             <? segment_length * num_segments) with true
      by (symmetry; apply Z.ltb_lt; nia).
    replace (0 + segment_length + Z.of_nat n * segment_length
             <? read_length - trim3) with true
      by (symmetry; apply Z.ltb_lt; nia).
    split.
    + intros [= Heq]. apply app_inv_head in Heq. injection Heq as Heq. lia.
    + intros Hrem. do 4 f_equal. lia.
Qed.

Lemma segment_trim_matters_iff_remainder_witness :
  determine_read_segments 76 25 true 0 1
  = determine_read_segments 76 25 false 0 1
  <-> (76 - 0 - 1) mod 25 = 0.
Proof.
  apply (segment_trim_matters_iff_remainder 76 25 1); lia.
Defined.

(** In a run of align without trimming to a multiple, on files that
    validation accepts with read length rlen (MIN_SEGMENT_LENGTH positive,
    trims not negative), the segmenter's command line carries the starts
    and the ends of a list of boundaries that lie in the read, are
    contiguous, and cover exactly [trim5, rlen - trim3). *)
Theorem align_hands_over_tiling
  (cfg : config) (w : world)
  (fastq_files : list string) (fastq_format bowtie_index output_bam_file : string)
  (bowtie_bin : string) (num_processors segment_length : Z)
  (trim5 trim3 multihits mismatches : Z)
  (bowtie_mode : string) (best_strata : bool) (log_file : option string)
  (rlen : Z) (o : outcome Z) (t : list event) (cmd : list string) :
  0 < MIN_SEGMENT_LENGTH cfg ->
  0 <= trim5 -> 0 <= trim3 ->
  check_fastq_files cfg w fastq_files segment_length trim5 trim3
  = Return (Int rlen) ->
  align cfg w fastq_files fastq_format bowtie_index output_bam_file
    bowtie_bin num_processors segment_length false trim5 trim3
    multihits mismatches bowtie_mode best_strata log_file [] = (o, t) ->
  In cmd (commands Segmenter t) ->
  exists segs,
    nth_error cmd 2 = Some (join "," (map str (map fst segs)))
    /\ nth_error cmd 3 = Some (join "," (map str (map snd segs)))
    /\ boundaries_in_read rlen segs
    /\ contiguous segs
    /\ spans segs trim5 (rlen - trim3).
Proof.
  intros Hmin H5 H3 Hcheck Hrun Hcmd.
  destruct (check_fastq_files_returns_int _ _ _ _ _ _ _ Hcheck)
    as (_ & _ & _ & Hlow & Hhigh).
  destruct (determine_read_segments_chain rlen segment_length false
              trim5 trim3) as (segs & Hplan & Hchain & _);
    [lia | exact Hhigh | now left |].
  unfold read_end_of in Hchain.
  destruct (align_segments w fastq_files output_bam_file segs fastq_format
              multihits mismatches num_processors bowtie_bin bowtie_index
              bowtie_mode best_strata log_file []) as [o' t'] eqn:Hpipe.
  rewrite (align_after_validation cfg w fastq_files fastq_format
             bowtie_index output_bam_file bowtie_bin num_processors
             segment_length false trim5 trim3 multihits mismatches
             bowtie_mode best_strata log_file (Int rlen) segs o' t'
             Hcheck Hplan Hpipe) in Hrun.
  injection Hrun as _ <-.
  destruct (segmenter_command_boundaries _ _ _ _ _ _ _ _ _ _ _ _ _ _ _ _
              Hpipe Hcmd) as (Hs & He & _).
  exists segs. split; [exact Hs|]. split; [exact He|].
  split; [|split].
  - apply Forall_forall. intros b Hb.
    destruct (chain_bounds _ _ _ b Hchain Hb) as (Hlo & Hne & Hhi). lia.
  - eapply chain_contiguous; eassumption.
  - now apply chain_spans.
Qed.

Lemma align_hands_over_tiling_witness :
  exists segs,
    nth_error
      ["python"; "chimerascan/deprecated/segment_reads.py"; "0,25,50";
       "25,50,76"; "reads.fq"]%string 2
    = Some (join "," (map str (map fst segs)))
    /\ nth_error
         ["python"; "chimerascan/deprecated/segment_reads.py"; "0,25,50";
          "25,50,76"; "reads.fq"]%string 3
       = Some (join "," (map str (map snd segs)))
    /\ boundaries_in_read 76 segs
    /\ contiguous segs
    /\ spans segs 0 (76 - 0).
Proof.
  apply (align_hands_over_tiling sample_config aligner_fails
           ["reads.fq"%string] "phred33-quals" "hg19" "out.bam" "bowtie"
           2 25 0 0 40 2 "-v" true (Some "bowtie.log"%string) 76
           (fst logged_run) (snd logged_run)).
  - reflexivity.
  - lia.
  - lia.
  - reflexivity.
  - reflexivity.
  - cbn. left. reflexivity.
Defined.
